(** * CEL validation rules of kube-openapi: compilation and evaluation

    A shallow embedding of the rule compiler ([pkg/util/cel], both variants
    of [Compile]) and of the earlier [pkg/validation/validate] code
    ([CompileCel], [CompileCelForScalarElement], [newCelExpressionValidator],
    [celExpressionValidator.SetPath] and [.Validate]).

    The expression engine (cel-go) and the schema-to-declaration model
    (celopenapi/model) are consumed through their Go signatures: they are
    the fields of the class [Engine].  A Go result pair [(x, err)] is a
    Rocq pair whose second component is [None] when [err == nil]; a Go
    [error] value is represented by its message. *)

From stdpp Require Import base strings list gmap.

Local Open Scope string_scope.
Local Open Scope list_scope.

(** ** Data model *)

Abbreviation error := string.

(** [spec.Schema], restricted to the [SchemaProps] fields that the sources
    and their tests use. *)
#[local] Unset Elimination Schemes.
Inductive Schema : Type := mkSchema {
  Type_ : list string;
  Format : string;
  Properties : list (string * Schema);
  Items : option Schema;
  AdditionalProperties : option Schema
}.
#[local] Set Elimination Schemes.

(** Modelled from the spec: [spec.StringOrArray.Contains] is not among the
    sources; it is membership of a string in the schema's list of type
    names. *)
Fixpoint Contains (s : list string) (value : string) : bool :=
  match s with
  | [] => false
  | str :: rest => if String.eqb str value then true else Contains rest value
  end.

(** [type CelRule struct { Rule string; Message string }] *)
Record CelRule : Type := mkCelRule { Rule : string; Message : string }.

(** [*expr.Type] values, built with the constructors of cel-go's
    [checker/decls]. *)
Inductive exprType : Type :=
| decls_String
| decls_Int
| decls_Bool
| decls_Double
| decls_Bytes
| decls_Dyn
| decls_NewListType (elem : exprType)
| decls_NewMapType (key value : exprType)
| decls_NewObjectType (name : string).

(** [*expr.Decl]: the sources only build variable declarations. *)
Inductive Decl : Type :=
| decls_NewVar (name : string) (t : exprType).

(** [cel.EnvOption]. [cel_CustomOption] stands for the options that
    [RuleTypes.EnvOptions] returns and whose content the sources never
    look at. *)
Inductive EnvOption (O : Type) : Type :=
| celext_Strings
| celext_Encoders
| cel_Declarations (ds : list Decl)
| cel_CustomOption (o : O).
Arguments celext_Strings {O}.
Arguments celext_Encoders {O}.
Arguments cel_Declarations {O} ds.
Arguments cel_CustomOption {O} o.

(** What [ref.Val.Value()] returns, an [interface{}]. *)
Inductive GoValue : Type :=
| go_bool (b : bool)
| go_int64 (z : Z)
| go_string (s : string)
| go_nil
| go_other (kind : string).

(** [v != true] for an [interface{}] [v]: equal only when the dynamic type
    is [bool] and the value is [true]. *)
Definition neq_true (v : GoValue) : bool :=
  match v with
  | go_bool true => false
  | _ => true
  end.

(** A Go call either returns or panics. *)
Inductive outcome (A : Type) : Type :=
| Returned (a : A)
| Panicked (v : string).
Arguments Returned {A} a.
Arguments Panicked {A} v.

(** ** The external collaborators *)

Class Engine : Type := {
  (* cel-go *)
  Env : Type;
  Ast : Type;
  Issues : Type;
  Program : Type;
  RefVal : Type;
  TypeProvider : Type;
  CustomOption : Type;
  (* what is validated: an [interface{}] *)
  Data : Type;
  cel_NewEnv : list (EnvOption CustomOption) → Env * option error;
  Env_Extend : Env → list (EnvOption CustomOption) → Env * option error;
  Env_TypeProvider : Env → TypeProvider;
  Env_Compile : Env → string → Ast * option Issues;
  Env_Program : Env → Ast → Program * option error;
  Issues_Err : Issues → error;
  Issues_String : Issues → string;
  Program_Eval : Program → Data → RefVal * option error;
  RefVal_Value : RefVal → GoValue;
  (* third_party/forked/celopenapi/model *)
  Registry : Type;
  RuleTypes : Type;
  DeclType : Type;
  DeclField : Type;
  celmodel_NewRegistry : Env → Registry;
  celmodel_NewRuleTypes : string → Schema → Registry → RuleTypes * option error;
  celmodel_SchemaDeclType : Schema → DeclType;
  RuleTypes_EnvOptions :
    RuleTypes → TypeProvider → list (EnvOption CustomOption) * option error;
  RuleTypes_FindDeclType : RuleTypes → string → option DeclType;
  DeclType_MaybeAssignTypeName : DeclType → string → DeclType;
  DeclType_IsObject : DeclType → bool;
  DeclType_IsMap : DeclType → bool;
  DeclType_IsList : DeclType → bool;
  DeclType_Fields : DeclType → gmap string DeclField;
  DeclField_Type : DeclField → DeclType;
  DeclType_ExprType : DeclType → exprType;
  (* pkg/validation/validate and pkg/validation/errors *)
  Result : Type;
  ValidationError : Type;
  new_Result : Result;
  Result_AddErrors : Result → list ValidationError → Result;
  errors_ErrorExecutingValidatorRule :
    string → string → string → error → Data → ValidationError;
  errors_FailedValidatorRule :
    string → string → string → string → Data → ValidationError
}.

Section Common.
Context {E : Engine}.

(** [for k, f := range root.Fields { propDecls = append(propDecls,
    decls.NewVar(k, f.Type.ExprType())) }]: one declaration per entry of
    the map, in the order in which the map is traversed. *)
Definition fieldDecls (root : DeclType) : list Decl :=
  (λ kf, decls_NewVar kf.1 (DeclType_ExprType (DeclField_Type kf.2)))
    <$> map_to_list (DeclType_Fields root).

(** The rule loop, the same text in [Compile] (both variants),
    [CompileCel] and [CompileCelForScalarElement]:
<<
    for i, rule := range CelRules {
      ast, issues := env.Compile(rule.Rule)
      if issues != nil { allErrors = append(allErrors, fmt.Errorf(...)) }
      else { prog, err := env.Program(ast)
             if err != nil { allErrors = append(allErrors, fmt.Errorf(...)) }
             else { programs[i] = prog } } }
>>
    [i] is the index of the first rule of [rules]; a [nil] entry of
    [programs] is [None]. *)
Fixpoint compileLoop (env : Env) (i : nat) (rules : list CelRule)
    (programs : list (option Program)) (allErrors : list error)
    : list (option Program) * list error :=
  match rules with
  | [] => (programs, allErrors)
  | rule :: rest =>
      match Env_Compile env (Rule rule) with
      | (_, Some issues) =>
          compileLoop env (S i) rest programs
            (allErrors ++ ["compilation failed for rule: " +:+ Message rule
                           +:+ " with message: " +:+ Issues_Err issues])
      | (ast, None) =>
          match Env_Program env ast with
          | (_, Some err) =>
              compileLoop env (S i) rest programs
                (allErrors ++ ["program instantiation failed for rule: "
                               +:+ Message rule +:+ " with message: " +:+ err])
          | (prog, None) =>
              compileLoop env (S i) rest (<[i := Some prog]> programs) allErrors
          end
      end
  end.

(** [programs := make([]cel.Program, len(CelRules))] followed by the
    loop and [return programs, allErrors]. *)
Definition compileRules (env : Env) (CelRules : list CelRule)
    (allErrors : list error) : list (option Program) * list error :=
  compileLoop env 0 CelRules (replicate (length CelRules) None) allErrors.
End Common.

(** ** [pkg/util/cel], first variant: [Compile(schema, CelRules, rootName)] *)

Module cel.
Section Compile.
Context {E : Engine}.

(** Lines 41-101 of [Compile]: everything before the rule loop.  The
    result is [inl allErrors] where the source does
    [return nil, allErrors], and [inr env] where it reaches the loop
    ([allErrors] is still empty there). *)
Definition Compile_env (schema : Schema) (rootName : string)
    : outcome (list error + Env) :=
  let rootName :=
    if Nat.eqb (String.length rootName) 0 then "self" else rootName in
  let allErrors : list error := [] in
  let propDecls : list Decl := [] in
  let env := (cel_NewEnv []).1 in
  if Contains (Type_ schema) "string" || Contains (Type_ schema) "integer"
     || Contains (Type_ schema) "boolean" || Contains (Type_ schema) "number"
  then
    let newEnv (propDecls : list Decl) : outcome (list error + Env) :=
      match cel_NewEnv
              [celext_Strings; celext_Encoders; cel_Declarations propDecls] with
      | (_, Some err) =>
          Returned
            (inl (allErrors ++ ["error initializing CEL environment: " +:+ err]))
      | (env, None) => Returned (inr env)
      end in
    match Type_ schema !! 0%nat with
    | None => Panicked "index out of range"
    | Some t =>
        if String.eqb t "string" then
          newEnv (propDecls ++ [decls_NewVar rootName decls_String])
        else if String.eqb t "integer" then
          newEnv (propDecls ++ [decls_NewVar rootName decls_Int])
        else if String.eqb t "boolean" then
          newEnv (propDecls ++ [decls_NewVar rootName decls_Bool])
        else if String.eqb t "number" then
          newEnv (propDecls ++ [decls_NewVar rootName decls_Double])
        else
          Returned (inl (allErrors ++ ["not supported for type: " +:+ t]))
    end
  else
    let reg := celmodel_NewRegistry env in
    match celmodel_NewRuleTypes rootName schema reg with
    | (_, Some err) => Returned (inl (allErrors ++ [err]))
    | (rt, None) =>
        match RuleTypes_EnvOptions rt (Env_TypeProvider env) with
        | (_, Some err) => Returned (inl (allErrors ++ [err]))
        | (opts, None) =>
            let extend (propDecls : list Decl) : outcome (list error + Env) :=
              match Env_Extend env (opts ++ [cel_Declarations propDecls]) with
              | (_, Some err) => Returned (inl (allErrors ++ [err]))
              | (env, None) => Returned (inr env)
              end in
            match RuleTypes_FindDeclType rt rootName with
            | Some root =>
                if DeclType_IsObject root || DeclType_IsMap root then
                  extend (propDecls ++ fieldDecls root)
                else if DeclType_IsList root then
                  extend propDecls
                else
                  Returned (inl (allErrors ++ ["unsupported type"]))
            | None => extend propDecls
            end
        end
    end.

Definition Compile (schema : Schema) (CelRules : list CelRule)
    (rootName : string) : outcome (list (option Program) * list error) :=
  match Compile_env schema rootName with
  | Panicked v => Panicked v
  | Returned (inl allErrors) => Returned ([], allErrors)
  | Returned (inr env) => Returned (compileRules env CelRules [])
  end.

(** [Compile] as a caller reaches it, with [schema] the pointer that it
    is: a [nil] schema gets as far as line 47, where [schema.Type]
    dereferences it. *)
Definition Compile_pointer (schema : option Schema) (CelRules : list CelRule)
    (rootName : string) : outcome (list (option Program) * list error) :=
  match schema with
  | None => Panicked "invalid memory address or nil pointer dereference"
  | Some schema => Compile schema CelRules rootName
  end.
End Compile.
End cel.

(** ** [pkg/util/cel], second variant: [Compile(schema, celRules)] *)

Module cel2.
Section Compile.
Context {E : Engine}.

(** Lines 158-186: everything before the rule loop.  The error of
    [rt.EnvOptions] is assigned and never tested. *)
Definition Compile_env (schema : Schema) : list error + Env :=
  let scopedTypeName := "self" in
  let allErrors : list error := [] in
  let propDecls : list Decl := [] in
  let env := (cel_NewEnv []).1 in
  let reg := celmodel_NewRegistry env in
  match celmodel_NewRuleTypes scopedTypeName schema reg with
  | (_, Some err) => inl (allErrors ++ [err])
  | (rt, None) =>
      let opts := (RuleTypes_EnvOptions rt (Env_TypeProvider env)).1 in
      let root :=
        match RuleTypes_FindDeclType rt scopedTypeName with
        | Some root => root
        | None =>
            DeclType_MaybeAssignTypeName (celmodel_SchemaDeclType schema)
              scopedTypeName
        end in
      let propDecls :=
        if DeclType_IsObject root then propDecls ++ fieldDecls root
        else propDecls in
      let propDecls :=
        propDecls ++ [decls_NewVar scopedTypeName (DeclType_ExprType root)] in
      match Env_Extend env (opts ++ [cel_Declarations propDecls]) with
      | (_, Some err) => inl (allErrors ++ [err])
      | (env, None) => inr env
      end
  end.

Definition Compile (schema : Schema) (celRules : list CelRule)
    : list (option Program) * list error :=
  match Compile_env schema with
  | inl allErrors => ([], allErrors)
  | inr env => compileRules env celRules []
  end.
End Compile.
End cel2.

(** ** [pkg/validation/validate]: the earlier compiler and the validator *)

Module validate.
Section Validate.
Context {E : Engine}.

(** [CompileCel], lines 152-182: everything before the rule loop. *)
Definition CompileCel_env (schema : Schema) (rootName : string)
    : list error + Env :=
  let rootName :=
    if Nat.eqb (String.length rootName) 0 then "__root__" else rootName in
  let allErrors : list error := [] in
  let env := (cel_NewEnv []).1 in
  let reg := celmodel_NewRegistry env in
  match celmodel_NewRuleTypes rootName schema reg with
  | (_, Some err) => inl (allErrors ++ [err])
  | (rt, None) =>
      match RuleTypes_EnvOptions rt (Env_TypeProvider env) with
      | (_, Some err) => inl (allErrors ++ [err])
      | (opts, None) =>
          let propDecls : list Decl := [] in
          let propDecls :=
            match RuleTypes_FindDeclType rt rootName with
            | Some root =>
                if DeclType_IsObject root then propDecls ++ fieldDecls root
                else propDecls
            | None => propDecls
            end in
          match Env_Extend env (opts ++ [cel_Declarations propDecls]) with
          | (_, Some err) => inl (allErrors ++ [err])
          | (env, None) => inr env
          end
      end
  end.

Definition CompileCel (schema : Schema) (CelRules : list CelRule)
    (rootName : string) : list (option Program) * list error :=
  match CompileCel_env schema rootName with
  | inl allErrors => ([], allErrors)
  | inr env => compileRules env CelRules []
  end.

Definition CompileCelForScalarElement (CelRules : list CelRule)
    (schemaName schemaType : string) : list (option Program) * list error :=
  let allErrors : list error := [] in
  let celDecls : list Decl := [] in
  let rest (celDecls : list Decl) : list (option Program) * list error :=
    match cel_NewEnv
            [celext_Strings; celext_Encoders; cel_Declarations celDecls] with
    | (_, Some err) =>
        ([], allErrors ++ ["error initializing CEL environment: " +:+ err])
    | (env, None) => compileRules env CelRules allErrors
    end in
  if String.eqb schemaType "string" then
    rest (celDecls ++ [decls_NewVar schemaName decls_String])
  else if String.eqb schemaType "integer" then
    rest (celDecls ++ [decls_NewVar schemaName decls_Int])
  else if String.eqb schemaType "boolean" then
    rest (celDecls ++ [decls_NewVar schemaName decls_Bool])
  else
    ([], allErrors ++ ["not supported for type: " +:+ schemaType]).

(** [type celExpressionValidator struct]; a [nil] program is [None]. *)
Record celExpressionValidator : Type := mkValidator {
  Path : string;
  Rules : list CelRule;
  Programs : list (option Program)
}.

(** The rule loop of [newCelExpressionValidator], lines 65-76: the first
    rule that does not compile panics. *)
Fixpoint newLoop (env : Env) (i : nat) (rules : list CelRule)
    (programs : list (option Program)) : outcome (list (option Program)) :=
  match rules with
  | [] => Returned programs
  | rule :: rest =>
      match Env_Compile env (Rule rule) with
      | (_, Some issues) =>
          Panicked ("compilation failed: " +:+ Issues_String issues)
      | (ast, None) =>
          match Env_Program env ast with
          | (_, Some err) => Panicked ("program instantiation failed: " +:+ err)
          | (prog, None) => newLoop env (S i) rest (<[i := Some prog]> programs)
          end
      end
  end.

(** [newCelExpressionValidator], lines 38-62: the environment, or a
    panic. *)
Definition newCelExpressionValidator_env (schema : Schema) : outcome Env :=
  let env := (cel_NewEnv []).1 in
  let reg := celmodel_NewRegistry env in
  match celmodel_NewRuleTypes "__root__" schema reg with
  | (_, Some err) => Panicked err
  | (rt, None) =>
      match RuleTypes_EnvOptions rt (Env_TypeProvider env) with
      | (_, Some err) => Panicked err
      | (opts, None) =>
          let propDecls : list Decl := [] in
          let propDecls :=
            match RuleTypes_FindDeclType rt "__root__" with
            | Some root =>
                if DeclType_IsObject root then propDecls ++ fieldDecls root
                else propDecls
            | None => propDecls
            end in
          match Env_Extend env (opts ++ [cel_Declarations propDecls]) with
          | (_, Some err) => Panicked err
          | (env, None) => Returned env
          end
      end
  end.

Definition newCelExpressionValidator (path : string) (schema : Schema)
    (rules : list CelRule) : outcome celExpressionValidator :=
  match newCelExpressionValidator_env schema with
  | Panicked v => Panicked v
  | Returned env =>
      match newLoop env 0 rules (replicate (length rules) None) with
      | Panicked v => Panicked v
      | Returned programs =>
          Returned {| Path := path; Rules := rules; Programs := programs |}
      end
  end.

(** [func (c celExpressionValidator) SetPath(path string) { c.Path = path }].
    The receiver is a value: [c] is a variable of the method, initialised
    with a copy of the caller's validator.  [SetPath_receiver] is that
    variable when the body ends. *)
Definition SetPath_receiver (c : celExpressionValidator) (path : string)
    : celExpressionValidator :=
  {| Path := path; Rules := Rules c; Programs := Programs c |}.

(** The call [c.SetPath(path)] as the caller sees it: the method returns
    nothing and its receiver variable is dropped, so the caller is left
    with the validator it had. *)
Definition SetPath (c : celExpressionValidator) (path : string)
    : celExpressionValidator :=
  let _ := SetPath_receiver c path in c.

(** The loop of [Validate], lines 101-111. [i] is the index of the first
    program of [programs].  [c.Rules[i]] panics out of range, and so does
    [program.Eval] on a [nil] program. *)
Fixpoint ValidateLoop (c : celExpressionValidator) (data : Data) (i : nat)
    (programs : list (option Program)) (res : Result) : outcome Result :=
  match programs with
  | [] => Returned res
  | program :: rest =>
      match Rules c !! i with
      | None => Panicked "index out of range"
      | Some rule =>
          match program with
          | None => Panicked "invalid memory address or nil pointer dereference"
          | Some program =>
              match Program_Eval program data with
              | (_, Some err) =>
                  ValidateLoop c data (S i) rest
                    (Result_AddErrors res
                       [errors_ErrorExecutingValidatorRule
                          (Path c) "" (Rule rule) err data])
              | (evalResult, None) =>
                  if neq_true (RefVal_Value evalResult) then
                    ValidateLoop c data (S i) rest
                      (Result_AddErrors res
                         [errors_FailedValidatorRule
                            (Path c) "" (Rule rule) (Message rule) data])
                  else ValidateLoop c data (S i) rest res
              end
          end
      end
  end.

Definition Validate (c : celExpressionValidator) (data : Data)
    : outcome Result :=
  ValidateLoop c data 0 (Programs c) new_Result.

(** The dynamic type of the [interface{}] given to [Applies]: a
    [*spec.Schema], [nil] or not, or a value of another type. *)
Inductive source : Type :=
| source_Schema (schema : option Schema)
| source_other (typeName : string).

(** [func (c celExpressionValidator) Applies(source interface{}, _ reflect.Kind) bool],
    a type switch with the single case [*spec.Schema]. *)
Definition Applies {Kind : Type} (c : celExpressionValidator) (src : source)
    (_ : Kind) : bool :=
  match src with
  | source_Schema _ => true
  | source_other _ => false
  end.
End Validate.
End validate.

(** ** What one rule contributes

    The outcome of one pass through the loop body, stated per rule: the
    program stored for the rule ([None] when nothing is stored) and the
    error appended for it ([None] when nothing is appended). *)

Section PerRule.
Context {E : Engine}.

Definition ruleProgram (env : Env) (rule : CelRule) : option Program :=
  match Env_Compile env (Rule rule) with
  | (_, Some _) => None
  | (ast, None) =>
      match Env_Program env ast with
      | (_, Some _) => None
      | (prog, None) => Some prog
      end
  end.

Definition ruleError (env : Env) (rule : CelRule) : option error :=
  match Env_Compile env (Rule rule) with
  | (_, Some issues) =>
      Some ("compilation failed for rule: " +:+ Message rule
            +:+ " with message: " +:+ Issues_Err issues)
  | (ast, None) =>
      match Env_Program env ast with
      | (_, Some err) =>
          Some ("program instantiation failed for rule: " +:+ Message rule
                +:+ " with message: " +:+ err)
      | (_, None) => None
      end
  end.

(** What [Validate] reports for one program and its rule. *)
Definition ruleVerdict (path : string) (data : Data) (program : Program)
    (rule : CelRule) : option ValidationError :=
  match Program_Eval program data with
  | (_, Some err) =>
      Some (errors_ErrorExecutingValidatorRule path "" (Rule rule) err data)
  | (evalResult, None) =>
      match RefVal_Value evalResult with
      | go_bool true => None
      | _ =>
          Some (errors_FailedValidatorRule path "" (Rule rule) (Message rule) data)
      end
  end.

Definition report (res : Result) (e : option ValidationError) : Result :=
  match e with
  | Some e => Result_AddErrors res [e]
  | None => res
  end.
End PerRule.

(** The result of the setup after the last call to the engine: the error
    of the call, or the environment. *)
Definition setupResult `{E : Engine} (r : Env * option error) : list error + Env :=
  match r with
  | (_, Some err) => inl [err]
  | (env, None) => inr env
  end.

(** The engine type of each scalar kind of schema. *)
Definition scalarType (t : string) : option exprType :=
  if String.eqb t "string" then Some decls_String
  else if String.eqb t "integer" then Some decls_Int
  else if String.eqb t "boolean" then Some decls_Bool
  else if String.eqb t "number" then Some decls_Double
  else None.

(** The name [Compile] gives to the scoped value. *)
Definition scopeName (rootName : string) : string :=
  if Nat.eqb (String.length rootName) 0 then "self" else rootName.

(** The value with which the loop of [newCelExpressionValidator] panics
    on one rule, [None] where it goes on to the next rule. *)
Definition rulePanic `{E : Engine} (env : Env) (rule : CelRule) : option string :=
  match Env_Compile env (Rule rule) with
  | (_, Some issues) => Some ("compilation failed: " +:+ Issues_String issues)
  | (ast, None) =>
      match Env_Program env ast with
      | (_, Some err) => Some ("program instantiation failed: " +:+ err)
      | (_, None) => None
      end
  end.

(** [d.GetName()] for a declaration [d]. *)
Definition Decl_name (d : Decl) : string :=
  match d with decls_NewVar name _ => name end.

(** ** A small engine to run the definitions on

    An expression is the name of one variable.  It compiles in an
    environment that declares the variable, and evaluates to the value the
    instance gives to it.  An environment is the list of the options it was
    built from. *)

Module reference.
Definition headType (s : Schema) : string := default "" (Type_ s !! 0%nat).

Definition exprOf (s : Schema) : exprType :=
  let t := headType s in
  if String.eqb t "string" then decls_String
  else if String.eqb t "integer" then decls_Int
  else if String.eqb t "boolean" then decls_Bool
  else if String.eqb t "number" then decls_Double
  else if String.eqb t "array" then decls_NewListType decls_Dyn
  else if String.eqb t "object" then
    match AdditionalProperties s with
    | Some _ => decls_NewMapType decls_String decls_Dyn
    | None => decls_NewObjectType "object"
    end
  else decls_Dyn.

Definition supported (s : Schema) : bool :=
  Contains ["string"; "integer"; "boolean"; "number"; "array"; "object"]
    (headType s).

Definition declared (env : list (EnvOption string)) : list string :=
  mjoin ((λ o, match o with
               | cel_Declarations ds =>
                   (λ d, match d with decls_NewVar n _ => n end) <$> ds
               | _ => []
               end) <$> env).

Fixpoint get (data : list (string * GoValue)) (x : string) : option GoValue :=
  match data with
  | [] => None
  | (k, v) :: rest => if String.eqb k x then Some v else get rest x
  end.

Inductive report : Type :=
| ExecutingRule (path in_ rule cause : string)
| FailedRule (path in_ rule message : string).

Definition engine : Engine := {|
  Env := list (EnvOption string);
  Ast := string;
  Issues := string;
  Program := string;
  RefVal := GoValue;
  TypeProvider := unit;
  CustomOption := string;
  Data := list (string * GoValue);
  cel_NewEnv := λ opts, (opts, None);
  Env_Extend := λ env opts, (env ++ opts, None);
  Env_TypeProvider := λ _, tt;
  Env_Compile := λ env text,
    if bool_decide (text ∈ declared env) then (text, None)
    else (text, Some ("undeclared reference to '" +:+ text +:+ "'"));
  Env_Program := λ _ ast, (ast, None);
  Issues_Err := λ i, i;
  Issues_String := λ i, i;
  Program_Eval := λ p data,
    match get data p with
    | Some v => (v, None)
    | None => (go_nil, Some ("no such key: " +:+ p))
    end;
  RefVal_Value := λ v, v;
  Registry := unit;
  RuleTypes := string * Schema;
  DeclType := Schema;
  DeclField := Schema;
  celmodel_NewRegistry := λ _, tt;
  celmodel_NewRuleTypes := λ name schema _,
    ((name, schema),
     if supported schema then None
     else Some ("unsupported schema type: " +:+ headType schema));
  celmodel_SchemaDeclType := λ s, s;
  RuleTypes_EnvOptions := λ rt _,
    ([cel_CustomOption rt.1; cel_Declarations [decls_NewVar rt.1 (exprOf rt.2)]],
     None);
  RuleTypes_FindDeclType := λ rt name,
    if String.eqb name rt.1 then Some rt.2 else None;
  DeclType_MaybeAssignTypeName := λ d _, d;
  DeclType_IsObject := λ s,
    String.eqb (headType s) "object"
    && bool_decide (AdditionalProperties s = None);
  DeclType_IsMap := λ s,
    String.eqb (headType s) "object"
    && negb (bool_decide (AdditionalProperties s = None));
  DeclType_IsList := λ s, String.eqb (headType s) "array";
  DeclType_Fields := λ s, list_to_map (Properties s);
  DeclField_Type := λ s, s;
  DeclType_ExprType := exprOf;
  Result := list report;
  ValidationError := report;
  new_Result := [];
  Result_AddErrors := λ res es, res ++ es;
  errors_ErrorExecutingValidatorRule := λ path in_ rule err _,
    ExecutingRule path in_ rule err;
  errors_FailedValidatorRule := λ path in_ rule message _,
    FailedRule path in_ rule message
|}.

Definition scalar (t : string) : Schema := mkSchema [t] "" [] None None.

(** The [valid object] schema of the tests. *)
Definition replicas : Schema :=
  mkSchema ["object"] ""
    [("minReplicas", scalar "integer"); ("maxReplicas", scalar "integer")]
    None None.

(** A list of strings at the root. *)
Definition names : Schema :=
  mkSchema ["array"] "" [] (Some (scalar "string")) None.

(** The same engine with three failures switched on: [rt.EnvOptions]
    returns [optionsError] beside its options, [rt.FindDeclType] finds the
    root only where [rootKnown], and [env.Program] fails on the
    expressions of [unplannable]. *)
Definition variant (optionsError : option error) (rootKnown : bool)
    (unplannable : list string) : Engine := {|
  Env := @Env engine;
  Ast := @Ast engine;
  Issues := @Issues engine;
  Program := @Program engine;
  RefVal := @RefVal engine;
  TypeProvider := @TypeProvider engine;
  CustomOption := @CustomOption engine;
  Data := @Data engine;
  cel_NewEnv := @cel_NewEnv engine;
  Env_Extend := @Env_Extend engine;
  Env_TypeProvider := @Env_TypeProvider engine;
  Env_Compile := @Env_Compile engine;
  Env_Program := λ _ ast,
    if bool_decide (ast ∈ unplannable)
    then (ast, Some ("no plan for '" +:+ ast +:+ "'"))
    else (ast, None);
  Issues_Err := @Issues_Err engine;
  Issues_String := @Issues_String engine;
  Program_Eval := @Program_Eval engine;
  RefVal_Value := @RefVal_Value engine;
  Registry := @Registry engine;
  RuleTypes := @RuleTypes engine;
  DeclType := @DeclType engine;
  DeclField := @DeclField engine;
  celmodel_NewRegistry := @celmodel_NewRegistry engine;
  celmodel_NewRuleTypes := @celmodel_NewRuleTypes engine;
  celmodel_SchemaDeclType := @celmodel_SchemaDeclType engine;
  RuleTypes_EnvOptions := λ rt tp,
    ((@RuleTypes_EnvOptions engine rt tp).1, optionsError);
  RuleTypes_FindDeclType := λ rt name,
    if rootKnown then @RuleTypes_FindDeclType engine rt name else None;
  DeclType_MaybeAssignTypeName := @DeclType_MaybeAssignTypeName engine;
  DeclType_IsObject := @DeclType_IsObject engine;
  DeclType_IsMap := @DeclType_IsMap engine;
  DeclType_IsList := @DeclType_IsList engine;
  DeclType_Fields := @DeclType_Fields engine;
  DeclField_Type := @DeclField_Type engine;
  DeclType_ExprType := @DeclType_ExprType engine;
  Result := @Result engine;
  ValidationError := @ValidationError engine;
  new_Result := @new_Result engine;
  Result_AddErrors := @Result_AddErrors engine;
  errors_ErrorExecutingValidatorRule := @errors_ErrorExecutingValidatorRule engine;
  errors_FailedValidatorRule := @errors_FailedValidatorRule engine
|}.

(** The same engine with an [rt.EnvOptions] that registers the rule types
    and declares no variable. *)
Definition plain : Engine := {|
  Env := @Env engine;
  Ast := @Ast engine;
  Issues := @Issues engine;
  Program := @Program engine;
  RefVal := @RefVal engine;
  TypeProvider := @TypeProvider engine;
  CustomOption := @CustomOption engine;
  Data := @Data engine;
  cel_NewEnv := @cel_NewEnv engine;
  Env_Extend := @Env_Extend engine;
  Env_TypeProvider := @Env_TypeProvider engine;
  Env_Compile := @Env_Compile engine;
  Env_Program := @Env_Program engine;
  Issues_Err := @Issues_Err engine;
  Issues_String := @Issues_String engine;
  Program_Eval := @Program_Eval engine;
  RefVal_Value := @RefVal_Value engine;
  Registry := @Registry engine;
  RuleTypes := @RuleTypes engine;
  DeclType := @DeclType engine;
  DeclField := @DeclField engine;
  celmodel_NewRegistry := @celmodel_NewRegistry engine;
  celmodel_NewRuleTypes := @celmodel_NewRuleTypes engine;
  celmodel_SchemaDeclType := @celmodel_SchemaDeclType engine;
  RuleTypes_EnvOptions := λ rt _, ([cel_CustomOption rt.1], None);
  RuleTypes_FindDeclType := @RuleTypes_FindDeclType engine;
  DeclType_MaybeAssignTypeName := @DeclType_MaybeAssignTypeName engine;
  DeclType_IsObject := @DeclType_IsObject engine;
  DeclType_IsMap := @DeclType_IsMap engine;
  DeclType_IsList := @DeclType_IsList engine;
  DeclType_Fields := @DeclType_Fields engine;
  DeclField_Type := @DeclField_Type engine;
  DeclType_ExprType := @DeclType_ExprType engine;
  Result := @Result engine;
  ValidationError := @ValidationError engine;
  new_Result := @new_Result engine;
  Result_AddErrors := @Result_AddErrors engine;
  errors_ErrorExecutingValidatorRule := @errors_ErrorExecutingValidatorRule engine;
  errors_FailedValidatorRule := @errors_FailedValidatorRule engine
|}.

(** A map from strings to booleans that also has a property of its own. *)
Definition labelled : Schema :=
  mkSchema ["object"] "" [("name", scalar "string")] None
    (Some (scalar "boolean")).

(** A map from strings to booleans, the [valid map] schema of the tests. *)
Definition flags : Schema :=
  mkSchema ["object"] "" [] None (Some (scalar "boolean")).
End reference.

(** ** The rule loop *)

Section LoopFacts.
Context {E : Engine}.

Lemma ruleError_ruleProgram (env : Env) (rule : CelRule) :
  is_Some (ruleError env rule) ↔ ruleProgram env rule = None.
Proof.
  unfold ruleError, ruleProgram.
  destruct (Env_Compile env (Rule rule)) as [ast [issues|]].
  - split; eauto.
  - destruct (Env_Program env ast) as [prog [err|]].
    + split; eauto.
    + split; [intros [? ?]|]; discriminate.
Qed.

(** One pass of the loop fills slot [i] with the rule's program and
    appends the rule's error; the slots before [i] are left alone. *)
Lemma compileLoop_spec (env : Env) (rules : list CelRule) :
  ∀ (done : list (option Program)) (allErrors : list error),
    compileLoop env (length done) rules
      (done ++ replicate (length rules) None) allErrors
    = (done ++ (ruleProgram env <$> rules),
       allErrors ++ omap (ruleError env) rules).
Proof.
  induction rules as [|rule rest IH]; intros done allErrors; simpl.
  - by rewrite !app_nil_r.
  - assert (Hnext : ∀ x : option Program,
              done ++ x :: replicate (length rest) None
              = (done ++ [x]) ++ replicate (length rest) None)
      by (intros x; by rewrite <- app_assoc).
    assert (Hlen : ∀ x : option Program, S (length done) = length (done ++ [x]))
      by (intros x; rewrite length_app; simpl; lia).
    unfold ruleProgram, ruleError.
    destruct (Env_Compile env (Rule rule)) as [ast [issues|]].
    + rewrite (Hnext None), (Hlen None), IH.
      by rewrite <- !app_assoc.
    + destruct (Env_Program env ast) as [prog [err|]].
      * rewrite (Hnext None), (Hlen None), IH.
        by rewrite <- !app_assoc.
      * rewrite insert_app_r_alt by lia.
        rewrite Nat.sub_diag. simpl.
        rewrite (Hnext (Some prog)), (Hlen (Some prog)), IH.
        by rewrite <- !app_assoc.
Qed.

Lemma compileRules_spec (env : Env) (rules : list CelRule)
    (allErrors : list error) :
  compileRules env rules allErrors
  = (ruleProgram env <$> rules, allErrors ++ omap (ruleError env) rules).
Proof. apply (compileLoop_spec env rules []). Qed.

Lemma Compile_reaches_loop (schema : Schema) (rootName : string) (env : Env)
    (CelRules : list CelRule) :
  cel.Compile_env schema rootName = Returned (inr env) →
  cel.Compile schema CelRules rootName
  = Returned (ruleProgram env <$> CelRules, omap (ruleError env) CelRules).
Proof.
  intros Henv. unfold cel.Compile. rewrite Henv.
  by rewrite compileRules_spec.
Qed.

(** The same holds of the copy of the loop in [CompileCel]. *)
Lemma CompileCel_reaches_loop (schema : Schema) (rootName : string)
    (env : Env) (CelRules : list CelRule) :
  validate.CompileCel_env schema rootName = inr env →
  validate.CompileCel schema CelRules rootName
  = (ruleProgram env <$> CelRules, omap (ruleError env) CelRules).
Proof.
  intros Henv. unfold validate.CompileCel. rewrite Henv.
  by rewrite compileRules_spec.
Qed.
End LoopFacts.

(** C1. Once the environment of a schema is built, a rule that fails to
    compile does not stop the loop of [Compile]: the error recorded for it
    is made of the rule's message and of the compiler's diagnostic, the
    rule after it is compiled as if nothing had happened, and the errors
    returned are those of all the rules, in the order of the rules. *)
Theorem Compile_collects_all_errors `{E : Engine} (schema : Schema)
    (rootName : string) (env : Env) (CelRules : list CelRule) :
  cel.Compile_env schema rootName = Returned (inr env) →
  ∃ programs allErrors,
    cel.Compile schema CelRules rootName = Returned (programs, allErrors)
    ∧ allErrors = omap (ruleError env) CelRules
    ∧ ∀ i rule issues,
        CelRules !! i = Some rule →
        (Env_Compile env (Rule rule)).2 = Some issues →
        ("compilation failed for rule: " +:+ Message rule
         +:+ " with message: " +:+ Issues_Err issues) ∈ allErrors
        ∧ ∀ next, CelRules !! S i = Some next →
                  programs !! S i = Some (ruleProgram env next).
Proof.
  intros Henv. eexists _, _.
  split; [by apply Compile_reaches_loop|].
  split; [done|].
  intros i rule issues Hi Hissues. split.
  - apply list_elem_of_omap. exists rule. split.
    + by eapply list_elem_of_lookup_2.
    + unfold ruleError.
      destruct (Env_Compile env (Rule rule)) as [ast o]. simpl in Hissues.
      by subst o.
  - intros next Hnext. by rewrite list_lookup_fmap, Hnext.
Qed.

Lemma Compile_collects_all_errors_witness :
  let rules := [mkCelRule "minReplicas" "first"; mkCelRule "replicas" "second";
                mkCelRule "maxReplicas" "third"; mkCelRule "" "fourth"] in
  ∃ env programs allErrors,
    cel.Compile_env (E := reference.engine) reference.replicas ""
    = Returned (inr env)
    ∧ cel.Compile (E := reference.engine) reference.replicas rules ""
      = Returned (programs, allErrors)
    ∧ allErrors = omap (ruleError env) rules.
Proof.
  intros rules.
  eexists. 
  destruct (Compile_collects_all_errors (E := reference.engine)
              reference.replicas "" _ rules eq_refl)
    as (programs & allErrors & Hrun & Herrs & _).
  exists programs, allErrors. split; [reflexivity|]. split; assumption.
Defined.

(** C2. Once the environment of a schema is built, [Compile] returns as
    many programs as there are rules; the slot of index [i] holds the
    program compiled from the rule of index [i], and holds [nil] exactly
    when that rule produced an error. *)
Theorem Compile_programs_index_aligned `{E : Engine} (schema : Schema)
    (rootName : string) (env : Env) (CelRules : list CelRule) :
  cel.Compile_env schema rootName = Returned (inr env) →
  ∃ programs allErrors,
    cel.Compile schema CelRules rootName = Returned (programs, allErrors)
    ∧ length programs = length CelRules
    ∧ ∀ i rule,
        CelRules !! i = Some rule →
        programs !! i = Some (ruleProgram env rule)
        ∧ (programs !! i = Some None ↔ is_Some (ruleError env rule)).
Proof.
  intros Henv. eexists _, _.
  split; [by apply Compile_reaches_loop|].
  split; [by rewrite length_fmap|].
  intros i rule Hi. rewrite list_lookup_fmap, Hi. simpl.
  split; [done|].
  rewrite ruleError_ruleProgram. split; congruence.
Qed.

Lemma Compile_programs_index_aligned_witness :
  let rules := [mkCelRule "minReplicas" "first"; mkCelRule "replicas" "second";
                mkCelRule "maxReplicas" "third"] in
  ∃ env programs allErrors,
    cel.Compile_env (E := reference.engine) reference.replicas ""
    = Returned (inr env)
    ∧ cel.Compile (E := reference.engine) reference.replicas rules ""
      = Returned (programs, allErrors)
    ∧ length programs = length rules.
Proof.
  intros rules.
  eexists.
  destruct (Compile_programs_index_aligned (E := reference.engine)
              reference.replicas "" _ rules eq_refl)
    as (programs & allErrors & Hrun & Hlen & _).
  exists programs, allErrors. split; [reflexivity|]. split; assumption.
Defined.

(** C3. A rule whose expression text is empty is handed to the engine like
    any other rule: what [Compile] returns for it is what the engine makes
    of the empty text.  When the engine reports issues, the error is the
    ordinary [compilation failed for rule] error; when it does not, a
    program is stored and no error is recorded. *)
Theorem Compile_submits_empty_rule `{E : Engine} (schema : Schema)
    (rootName message : string) (env : Env) :
  cel.Compile_env schema rootName = Returned (inr env) →
  cel.Compile schema [mkCelRule "" message] rootName
  = Returned
      match Env_Compile env "" with
      | (_, Some issues) =>
          ([None],
           ["compilation failed for rule: " +:+ message
            +:+ " with message: " +:+ Issues_Err issues])
      | (ast, None) =>
          match Env_Program env ast with
          | (_, Some err) =>
              ([None],
               ["program instantiation failed for rule: " +:+ message
                +:+ " with message: " +:+ err])
          | (prog, None) => ([Some prog], [])
          end
      end.
Proof.
  intros Henv. rewrite (Compile_reaches_loop _ _ env) by done.
  simpl. unfold ruleProgram, ruleError. simpl.
  destruct (Env_Compile env "") as [ast [issues|]]; [done|].
  by destruct (Env_Program env ast) as [prog [err|]].
Qed.

Lemma Compile_submits_empty_rule_witness :
  cel.Compile (E := reference.engine) (reference.scalar "integer")
    [mkCelRule "" "size of scoped field should be equal to 10"] ""
  = Returned
      ([None],
       ["compilation failed for rule: size of scoped field should be equal to 10"
        +:+ " with message: undeclared reference to ''"]).
Proof.
  exact (Compile_submits_empty_rule (E := reference.engine)
           (reference.scalar "integer") ""
           "size of scoped field should be equal to 10" _ eq_refl).
Defined.

(** ** The validator *)

Section ValidatorFacts.
Context {E : Engine}.

Lemma ValidateLoop_spec (c : validate.celExpressionValidator) (data : Data)
    (programs : list Program) :
  ∀ (i : nat) (res : Result),
    (i + length programs ≤ length (validate.Rules c))%nat →
    validate.ValidateLoop c data i (Some <$> programs) res
    = Returned
        (foldl (λ res pr, report res (ruleVerdict (validate.Path c) data pr.1 pr.2))
           res (zip programs (drop i (validate.Rules c)))).
Proof.
  induction programs as [|program rest IH]; intros i res Hlen; simpl in *.
  - done.
  - destruct (lookup_lt_is_Some_2 (validate.Rules c) i) as [rule Hrule]; [lia|].
    rewrite Hrule. rewrite (drop_S _ _ _ Hrule). simpl.
    unfold ruleVerdict at 2.
    destruct (Program_Eval program data) as [evalResult [err|]]; simpl.
    + apply IH. lia.
    + destruct (RefVal_Value evalResult) as [[|]| | | |]; simpl;
        apply IH; lia.
Qed.

(** [Validate] panics where a validator has fewer rules than programs. *)
Lemma Validate_short_rules (path : string) (program : option Program)
    (data : Data) :
  validate.Validate (validate.mkValidator path [] [program]) data
  = Panicked "index out of range".
Proof. reflexivity. Qed.

Lemma newLoop_spec (env : Env) (rules : list CelRule) :
  ∀ (done : list Program) (programs : list (option Program)),
    validate.newLoop env (length done) rules
      ((Some <$> done) ++ replicate (length rules) None)
    = Returned programs →
    ∃ compiled : list Program,
      programs = Some <$> (done ++ compiled)
      ∧ length compiled = length rules.
Proof.
  induction rules as [|rule rest IH]; intros done programs; simpl.
  - intros [= <-]. exists []. by rewrite !app_nil_r.
  - destruct (Env_Compile env (Rule rule)) as [ast [issues|]]; [done|].
    destruct (Env_Program env ast) as [prog [err|]]; [done|].
    rewrite insert_app_r_alt by (rewrite length_fmap; lia).
    rewrite length_fmap, Nat.sub_diag. simpl.
    replace ((Some <$> done) ++ Some prog :: replicate (length rest) None)
      with ((Some <$> (done ++ [prog])) ++ replicate (length rest) None)
      by (by rewrite fmap_app, <- app_assoc).
    replace (S (length done)) with (length (done ++ [prog]))
      by (rewrite length_app; simpl; lia).
    intros Hrun. destruct (IH _ _ Hrun) as (compiled & -> & Hlen).
    exists (prog :: compiled). split.
    + by rewrite <- app_assoc.
    + simpl. lia.
Qed.

(** Every validator that [newCelExpressionValidator] returns has one
    program, none of them [nil], for each of its rules. *)
Lemma newCelExpressionValidator_programs (path : string) (schema : Schema)
    (rules : list CelRule) (c : validate.celExpressionValidator) :
  validate.newCelExpressionValidator path schema rules = Returned c →
  validate.Path c = path ∧ validate.Rules c = rules
  ∧ ∃ programs : list Program,
      validate.Programs c = Some <$> programs
      ∧ length programs = length rules.
Proof.
  unfold validate.newCelExpressionValidator.
  destruct (validate.newCelExpressionValidator_env schema) as [env|]; [|done].
  destruct (validate.newLoop env 0 rules _) as [programs|] eqn:Hloop; [|done].
  intros [= <-]. simpl. do 2 (split; [done|]).
  destruct (newLoop_spec env rules [] programs Hloop) as (compiled & -> & Hlen).
  by exists compiled.
Qed.
End ValidatorFacts.

(** C4. For a validator whose programs are all compiled programs, one for
    each rule, [Validate] goes through every pair of a program and its
    rule, whatever the earlier pairs gave.  A runtime error adds an error
    made of the path, the rule text and the cause; a result that is not
    the boolean [true], be it [false] or not a boolean at all, adds an
    error made of the path, the rule text and the rule's message; the
    boolean [true] adds nothing. *)
Theorem Validate_reports_each_rule `{E : Engine}
    (c : validate.celExpressionValidator) (data : Data)
    (programs : list Program) :
  validate.Programs c = Some <$> programs →
  (length programs ≤ length (validate.Rules c))%nat →
  validate.Validate c data
  = Returned
      (foldl (λ res pr, report res (ruleVerdict (validate.Path c) data pr.1 pr.2))
         new_Result (zip programs (validate.Rules c)))
  ∧ ∀ program rule,
      (∀ evalResult err,
         Program_Eval program data = (evalResult, Some err) →
         ruleVerdict (validate.Path c) data program rule
         = Some (errors_ErrorExecutingValidatorRule
                   (validate.Path c) "" (Rule rule) err data))
      ∧ (∀ evalResult,
           Program_Eval program data = (evalResult, None) →
           RefVal_Value evalResult ≠ go_bool true →
           ruleVerdict (validate.Path c) data program rule
           = Some (errors_FailedValidatorRule
                     (validate.Path c) "" (Rule rule) (Message rule) data))
      ∧ (∀ evalResult,
           Program_Eval program data = (evalResult, None) →
           RefVal_Value evalResult = go_bool true →
           ruleVerdict (validate.Path c) data program rule = None).
Proof.
  intros Hprograms Hlen. split.
  - unfold validate.Validate. rewrite Hprograms.
    by rewrite ValidateLoop_spec, drop_0.
  - intros program rule. unfold ruleVerdict. repeat split.
    + by intros evalResult err ->.
    + intros evalResult -> Hne.
      by destruct (RefVal_Value evalResult) as [[|]| | | |].
    + by intros evalResult -> ->.
Qed.

Lemma Validate_reports_each_rule_witness :
  let rules := [mkCelRule "minReplicas" "first"; mkCelRule "maxReplicas" "second";
                mkCelRule "minReplicas" "third"; mkCelRule "minReplicas" "fourth"] in
  let c := validate.mkValidator (E := reference.engine) "spec" rules
             [Some "minReplicas"; Some "maxReplicas"; Some "minReplicas";
              Some "minReplicas"] in
  validate.Validate (E := reference.engine) c [("minReplicas", go_int64 5)]
  = Returned
      [reference.FailedRule "spec" "" "minReplicas" "first";
       reference.ExecutingRule "spec" "" "maxReplicas" "no such key: maxReplicas";
       reference.FailedRule "spec" "" "minReplicas" "third";
       reference.FailedRule "spec" "" "minReplicas" "fourth"].
Proof.
  intros rules c.
  exact (proj1 (Validate_reports_each_rule (E := reference.engine) c
                  [("minReplicas", go_int64 5)]
                  ["minReplicas"; "maxReplicas"; "minReplicas"; "minReplicas"]
                  eq_refl (le_n 4))).
Defined.

(** ** Failures of the setup and of single rules *)

Section Failures.
Context {E : Engine}.

Lemma Contains_head (s : list string) (value : string) :
  Contains s value = true → is_Some (s !! 0%nat).
Proof. destruct s; [done|]. simpl. eauto. Qed.

(** [schema.Type[0]] is in range where [Compile] reads it: the setup of
    [Compile] returns, with errors or with an environment. *)
Lemma Compile_env_returns (schema : Schema) (rootName : string) :
  ∃ r, cel.Compile_env schema rootName = Returned r.
Proof.
  unfold cel.Compile_env.
  destruct (Contains (Type_ schema) "string" || Contains (Type_ schema) "integer"
            || Contains (Type_ schema) "boolean"
            || Contains (Type_ schema) "number") eqn:Hscalar.
  - assert (is_Some (Type_ schema !! 0%nat)) as [t ->].
    { repeat (apply orb_prop in Hscalar as [Hscalar|Hscalar]);
        by eapply Contains_head. }
    repeat case_match; eauto.
  - repeat case_match; eauto.
Qed.

Lemma Compile_returns (schema : Schema) (CelRules : list CelRule)
    (rootName : string) :
  ∃ programs allErrors,
    cel.Compile schema CelRules rootName = Returned (programs, allErrors).
Proof.
  unfold cel.Compile.
  destruct (Compile_env_returns schema rootName) as [[allErrors|env] ->].
  - by eexists _, _.
  - destruct (compileRules env CelRules []) as [programs allErrors].
    by eexists _, _.
Qed.

(** The setup of [newCelExpressionValidator] panics with the error of
    [celmodel.NewRuleTypes]; [CompileCel] returns the same error. *)
Lemma newCelExpressionValidator_setup_panics (path : string) (schema : Schema)
    (rules : list CelRule) (err : error) :
  (celmodel_NewRuleTypes "__root__" schema
     (celmodel_NewRegistry (cel_NewEnv []).1)).2 = Some err →
  validate.newCelExpressionValidator path schema rules = Panicked err
  ∧ validate.CompileCel schema rules "" = ([], [err]).
Proof.
  intros Herr.
  unfold validate.newCelExpressionValidator, validate.newCelExpressionValidator_env,
    validate.CompileCel, validate.CompileCel_env. simpl.
  destruct (celmodel_NewRuleTypes "__root__" schema _) as [rt o].
  simpl in Herr. by subst o.
Qed.
End Failures.

(** C5. [newCelExpressionValidator] does not return the failure of a rule
    to its caller: once its environment is built, a first rule on which
    the engine reports issues makes it panic with those issues. *)
Theorem newCelExpressionValidator_panics_on_bad_rule `{E : Engine}
    (path : string) (schema : Schema) (env : Env) (rule : CelRule)
    (rest : list CelRule) (issues : Issues) :
  validate.newCelExpressionValidator_env schema = Returned env →
  (Env_Compile env (Rule rule)).2 = Some issues →
  validate.newCelExpressionValidator path schema (rule :: rest)
  = Panicked ("compilation failed: " +:+ Issues_String issues).
Proof.
  intros Henv Hissues. unfold validate.newCelExpressionValidator.
  rewrite Henv. simpl.
  destruct (Env_Compile env (Rule rule)) as [ast o]. simpl in Hissues.
  by subst o.
Qed.

Lemma newCelExpressionValidator_panics_on_bad_rule_witness :
  validate.newCelExpressionValidator (E := reference.engine) ""
    reference.replicas
    [mkCelRule "replicas" "replicas should be set";
     mkCelRule "minReplicas" "minReplicas should be set"]
  = Panicked "compilation failed: undeclared reference to 'replicas'".
Proof.
  exact (newCelExpressionValidator_panics_on_bad_rule (E := reference.engine)
           "" reference.replicas _ (mkCelRule "replicas" "replicas should be set")
           [mkCelRule "minReplicas" "minReplicas should be set"]
           "undeclared reference to 'replicas'" eq_refl eq_refl).
Defined.

(** ** The declarations of the environment *)

Section Declarations.
Context {E : Engine}.

Lemma fieldDecls_lookup (root : DeclType) (k : string) (f : DeclField) :
  DeclType_Fields root !! k = Some f →
  decls_NewVar k (DeclType_ExprType (DeclField_Type f)) ∈ fieldDecls root.
Proof.
  intros Hk. unfold fieldDecls. apply list_elem_of_fmap.
  exists (k, f). split; [done|]. by apply elem_of_map_to_list.
Qed.

Lemma fieldDecls_names (root : DeclType) (d : Decl) :
  d ∈ fieldDecls root →
  ∃ k f, DeclType_Fields root !! k = Some f
         ∧ d = decls_NewVar k (DeclType_ExprType (DeclField_Type f)).
Proof.
  unfold fieldDecls. intros ([k f] & -> & Hkf)%list_elem_of_fmap.
  exists k, f. split; [by apply elem_of_map_to_list|done].
Qed.

(** First variant of [Compile], root that is not a scalar: what is
    declared on top of the options of [rt.EnvOptions] is the fields of an
    object or map root, and nothing for a list root. *)
Lemma Compile_env_structured (schema : Schema) (rootName : string)
    (rt : RuleTypes) (opts : list (EnvOption CustomOption)) (root : DeclType) :
  let env0 := (cel_NewEnv []).1 in
  Contains (Type_ schema) "string" || Contains (Type_ schema) "integer"
  || Contains (Type_ schema) "boolean" || Contains (Type_ schema) "number"
  = false →
  celmodel_NewRuleTypes (scopeName rootName) schema (celmodel_NewRegistry env0)
  = (rt, None) →
  RuleTypes_EnvOptions rt (Env_TypeProvider env0) = (opts, None) →
  RuleTypes_FindDeclType rt (scopeName rootName) = Some root →
  cel.Compile_env schema rootName
  = Returned
      (if DeclType_IsObject root || DeclType_IsMap root then
         setupResult (Env_Extend env0 (opts ++ [cel_Declarations (fieldDecls root)]))
       else if DeclType_IsList root then
         setupResult (Env_Extend env0 (opts ++ [cel_Declarations []]))
       else inl ["unsupported type"]).
Proof.
  intros env0 Hscalar Hrt Hopts Hroot. unfold cel.Compile_env.
  fold (scopeName rootName). fold env0.
  rewrite Hscalar, Hrt, Hopts, Hroot. unfold setupResult.
  destruct (DeclType_IsObject root || DeclType_IsMap root).
  - simpl. by destruct (Env_Extend _ _) as [env [err|]].
  - destruct (DeclType_IsList root); [|done].
    by destruct (Env_Extend _ _) as [env [err|]].
Qed.

(** First variant of [Compile], object or map root: every field of the
    root is among the declarations that [Compile] itself adds, and these
    are all it adds. *)
Lemma Compile_declares_fields (schema : Schema) (rootName : string)
    (rt : RuleTypes) (opts : list (EnvOption CustomOption)) (root : DeclType) :
  let env0 := (cel_NewEnv []).1 in
  Contains (Type_ schema) "string" || Contains (Type_ schema) "integer"
  || Contains (Type_ schema) "boolean" || Contains (Type_ schema) "number"
  = false →
  celmodel_NewRuleTypes (scopeName rootName) schema (celmodel_NewRegistry env0)
  = (rt, None) →
  RuleTypes_EnvOptions rt (Env_TypeProvider env0) = (opts, None) →
  RuleTypes_FindDeclType rt (scopeName rootName) = Some root →
  DeclType_IsObject root || DeclType_IsMap root = true →
  ∃ propDecls,
    cel.Compile_env schema rootName
    = Returned (setupResult (Env_Extend env0 (opts ++ [cel_Declarations propDecls])))
    ∧ ∀ d, d ∈ propDecls ↔
           ∃ k f, DeclType_Fields root !! k = Some f
                  ∧ d = decls_NewVar k (DeclType_ExprType (DeclField_Type f)).
Proof.
  intros env0 Hscalar Hrt Hopts Hroot Hobj. exists (fieldDecls root). split.
  - by rewrite (Compile_env_structured schema rootName rt opts root), Hobj.
  - intros d. split; [apply fieldDecls_names|].
    intros (k & f & Hk & ->). by apply fieldDecls_lookup.
Qed.
End Declarations.

(** C6, as the code has it.  For an object root the two-argument
    [Compile] declares every field of the root under its own name and the
    variable [self] at the type of the root, so that a field [f] can be
    written [f] and [self.f]; for a root that is not an object, a map
    among them, it declares [self] alone.  The three-argument [Compile]
    declares, for an object or a map root, the fields of the root and
    nothing else: it has no declaration of the scope variable of its own,
    which is there only where [rt.EnvOptions] declares it. *)
Theorem Compile_declares_fields_and_self `{E : Engine} (schema : Schema) :
  (∀ env : Env,
     cel2.Compile_env schema = inr env →
     ∃ rt propDecls,
       let env0 := (cel_NewEnv []).1 in
       let root :=
         default
           (DeclType_MaybeAssignTypeName (celmodel_SchemaDeclType schema) "self")
           (RuleTypes_FindDeclType rt "self") in
       celmodel_NewRuleTypes "self" schema (celmodel_NewRegistry env0) = (rt, None)
       ∧ Env_Extend env0
           ((RuleTypes_EnvOptions rt (Env_TypeProvider env0)).1
            ++ [cel_Declarations propDecls])
         = (env, None)
       ∧ decls_NewVar "self" (DeclType_ExprType root) ∈ propDecls
       ∧ (DeclType_IsObject root = true →
          ∀ k f, DeclType_Fields root !! k = Some f →
                 decls_NewVar k (DeclType_ExprType (DeclField_Type f)) ∈ propDecls)
       ∧ (DeclType_IsObject root = false →
          propDecls = [decls_NewVar "self" (DeclType_ExprType root)]))
  ∧ (∀ (rootName : string) (rt : RuleTypes)
       (opts : list (EnvOption CustomOption)) (root : DeclType),
       let env0 := (cel_NewEnv []).1 in
       Contains (Type_ schema) "string" || Contains (Type_ schema) "integer"
       || Contains (Type_ schema) "boolean" || Contains (Type_ schema) "number"
       = false →
       celmodel_NewRuleTypes (scopeName rootName) schema
         (celmodel_NewRegistry env0) = (rt, None) →
       RuleTypes_EnvOptions rt (Env_TypeProvider env0) = (opts, None) →
       RuleTypes_FindDeclType rt (scopeName rootName) = Some root →
       DeclType_IsObject root || DeclType_IsMap root = true →
       ∃ propDecls,
         cel.Compile_env schema rootName
         = Returned
             (setupResult
                (Env_Extend env0 (opts ++ [cel_Declarations propDecls])))
         ∧ ∀ d, d ∈ propDecls ↔
                ∃ k f, DeclType_Fields root !! k = Some f
                       ∧ d = decls_NewVar k
                               (DeclType_ExprType (DeclField_Type f))).
Proof.
  split.
  - intros env. unfold cel2.Compile_env.
    destruct (celmodel_NewRuleTypes "self" schema _) as [rt [err|]] eqn:Hrt;
      [done|].
    destruct (Env_Extend _ _) as [env' [err|]] eqn:Hext; [done|].
    intros [= ->]. exists rt. eexists.
    split; [done|]. split; [exact Hext|].
    destruct (RuleTypes_FindDeclType rt "self") as [root|]; simpl; repeat split.
    all: try (apply elem_of_app; right; by apply list_elem_of_singleton).
    all: try by intros ->.
    all: intros Hobj k f Hk; rewrite Hobj; simpl;
      apply elem_of_app; left; by apply fieldDecls_lookup.
  - intros rootName rt opts root env0 Hscalar Hrt Hopts Hroot Hobj.
    by apply (Compile_declares_fields schema rootName rt opts root).
Qed.

Lemma Compile_declares_fields_and_self_witness :
  (∃ (env : Env (Engine := reference.engine)) (propDecls : list Decl),
     cel2.Compile_env (E := reference.engine) reference.replicas = inr env
     ∧ decls_NewVar "self" (decls_NewObjectType "object") ∈ propDecls
     ∧ decls_NewVar "minReplicas" decls_Int ∈ propDecls
     ∧ decls_NewVar "maxReplicas" decls_Int ∈ propDecls)
  ∧ ∃ propDecls : list Decl,
      cel.Compile_env (E := reference.engine) reference.replicas ""
      = Returned
          (setupResult (E := reference.engine)
             ([cel_CustomOption "self";
               cel_Declarations
                 [decls_NewVar "self" (decls_NewObjectType "object")];
               cel_Declarations propDecls], None))
      ∧ decls_NewVar "self" (decls_NewObjectType "object") ∉ propDecls.
Proof.
  split.
  - eexists.
    destruct (proj1 (Compile_declares_fields_and_self (E := reference.engine)
                       reference.replicas) _ eq_refl)
      as (rt & propDecls & Hrt & Hext & Hself & Hfields & _).
    injection Hrt as <-. exists propDecls.
    split; [reflexivity|].
    split; [exact Hself|].
    split.
    + apply (Hfields eq_refl "minReplicas" (reference.scalar "integer")).
      vm_compute. reflexivity.
    + apply (Hfields eq_refl "maxReplicas" (reference.scalar "integer")).
      vm_compute. reflexivity.
  - destruct (proj2 (Compile_declares_fields_and_self (E := reference.engine)
                       reference.replicas)
                "" ("self", reference.replicas) _ reference.replicas
                eq_refl eq_refl eq_refl eq_refl eq_refl)
      as (propDecls & Henv & Hfields).
    exists propDecls. split; [exact Henv|].
    intros (k & f & Hk & Hd)%Hfields. injection Hd as <- _.
    vm_compute in Hk. discriminate Hk.
Defined.

(** The two gaps between C6 as the specification has it and the code.  With
    an [rt.EnvOptions] that declares no variable, the three-argument
    [Compile] compiles the field [minReplicas] of an object root and not
    [self].  On a map root that has a property, the two-argument [Compile]
    compiles [self] and not the property. *)
Lemma Compile_fields_or_self_missing :
  cel.Compile (E := reference.plain) reference.replicas
    [mkCelRule "minReplicas" "first"; mkCelRule "self" "second"] ""
  = Returned
      ([Some "minReplicas"; None],
       ["compilation failed for rule: second with message: "
        +:+ "undeclared reference to 'self'"])
  ∧ DeclType_IsMap (Engine := reference.engine) reference.labelled = true
  ∧ DeclType_Fields (Engine := reference.engine) reference.labelled !! "name"
    = Some (reference.scalar "string")
  ∧ cel2.Compile (E := reference.engine) reference.labelled
      [mkCelRule "self" "first"; mkCelRule "name" "second"]
    = ([Some "self"; None],
       ["compilation failed for rule: second with message: "
        +:+ "undeclared reference to 'name'"]).
Proof. repeat split; vm_compute; reflexivity. Qed.

(** C7, as the code has it.  For a schema whose type is one of the four
    scalar kinds, the environment of [Compile] is the one the engine
    builds from the string and encoder extensions and from one
    declaration, that of the scope variable at the engine type of the
    kind: no field is declared.  The format of the schema plays no part,
    so a string of format [byte] is declared as a string.
    [CompileCelForScalarElement] builds the same environment for the type
    names [string], [integer] and [boolean], and turns [number] down as
    not supported. *)
Theorem Compile_scalar_environment `{E : Engine} (schema : Schema)
    (rootName t : string) (T : exprType) :
  Type_ schema !! 0%nat = Some t →
  scalarType t = Some T →
  cel.Compile_env schema rootName
  = Returned
      match cel_NewEnv
              [celext_Strings; celext_Encoders;
               cel_Declarations [decls_NewVar (scopeName rootName) T]] with
      | (_, Some err) => inl ["error initializing CEL environment: " +:+ err]
      | (env, None) => inr env
      end
  ∧ cel.Compile_env
      (mkSchema (Type_ schema) "byte" (Properties schema) (Items schema)
         (AdditionalProperties schema)) rootName
    = cel.Compile_env schema rootName
  ∧ ∀ (CelRules : list CelRule) (schemaName : string),
      validate.CompileCelForScalarElement CelRules schemaName t
      = if String.eqb t "number"
        then ([], ["not supported for type: number"])
        else
          match cel_NewEnv
                  [celext_Strings; celext_Encoders;
                   cel_Declarations [decls_NewVar schemaName T]] with
          | (_, Some err) =>
              ([], ["error initializing CEL environment: " +:+ err])
          | (env, None) => compileRules env CelRules []
          end.
Proof.
  intros Ht HT.
  assert (Hany : ∀ schema' : Schema,
            Type_ schema' !! 0%nat = Some t →
            cel.Compile_env schema' rootName
            = Returned
                match cel_NewEnv
                        [celext_Strings; celext_Encoders;
                         cel_Declarations [decls_NewVar (scopeName rootName) T]] with
                | (_, Some err) =>
                    inl ["error initializing CEL environment: " +:+ err]
                | (env, None) => inr env
                end).
  { clear schema Ht. intros schema Ht.
    unfold cel.Compile_env. fold (scopeName rootName).
    destruct (Type_ schema) as [|t' rest]; [done|].
    injection Ht as ->. unfold scalarType in HT. simpl.
    destruct (String.eqb t "string");
      [|destruct (String.eqb t "integer");
        [|destruct (String.eqb t "boolean");
          [|destruct (String.eqb t "number"); [|done]]]];
      injection HT as <-;
      destruct (Contains rest "string"), (Contains rest "integer"),
        (Contains rest "boolean"), (Contains rest "number"); simpl;
      by destruct (cel_NewEnv _) as [env [err|]]. }
  split; [by apply Hany|].
  split; [by rewrite !Hany|].
  intros CelRules schemaName. unfold scalarType in HT.
  unfold validate.CompileCelForScalarElement.
  destruct (String.eqb t "string") eqn:Hs.
  { apply String.eqb_eq in Hs. subst t. by injection HT as <-. }
  destruct (String.eqb t "integer") eqn:Hi.
  { apply String.eqb_eq in Hi. subst t. by injection HT as <-. }
  destruct (String.eqb t "boolean") eqn:Hb.
  { apply String.eqb_eq in Hb. subst t. by injection HT as <-. }
  destruct (String.eqb t "number") eqn:Hn; [|done].
  apply String.eqb_eq in Hn. by subst t.
Qed.

Lemma Compile_scalar_environment_witness :
  cel.Compile_env (E := reference.engine)
    (mkSchema ["string"] "byte" [] None None) ""
  = Returned
      (inr [celext_Strings; celext_Encoders;
            cel_Declarations [decls_NewVar "self" decls_String]])
  ∧ cel.Compile_env (E := reference.engine) (reference.scalar "number") "value"
    = Returned
        (inr [celext_Strings; celext_Encoders;
              cel_Declarations [decls_NewVar "value" decls_Double]]).
Proof.
  split.
  - exact (proj1 (Compile_scalar_environment (E := reference.engine)
                    (mkSchema ["string"] "byte" [] None None) "" "string"
                    decls_String eq_refl eq_refl)).
  - exact (proj1 (Compile_scalar_environment (E := reference.engine)
                    (reference.scalar "number") "value" "number"
                    decls_Double eq_refl eq_refl)).
Defined.

(** [CompileCelForScalarElement] on the [valid for number] case of the
    tests: where [Compile] builds the environment and compiles the rule,
    it returns the [not supported] error and no program. *)
Lemma CompileCelForScalarElement_rejects_number :
  validate.CompileCelForScalarElement (E := reference.engine)
    [mkCelRule "self" "scoped field should be greater than 1.0"] "self" "number"
  = ([], ["not supported for type: number"])
  ∧ cel.Compile (E := reference.engine) (reference.scalar "number")
      [mkCelRule "self" "scoped field should be greater than 1.0"] "self"
    = Returned ([Some "self"], []).
Proof. split; vm_compute; reflexivity. Qed.

(** [CompileCelForScalarElement] knows three of the kinds. *)
Lemma CompileCelForScalarElement_number `{E : Engine} (CelRules : list CelRule)
    (schemaName : string) :
  validate.CompileCelForScalarElement CelRules schemaName "number"
  = ([], ["not supported for type: number"]).
Proof. reflexivity. Qed.

(** C8. A root that is a list and neither an object nor a map gets no
    declaration of its own from [Compile] and no [unsupported type] error:
    the setup goes on to extend the environment with an empty list of
    declarations, and the rules are compiled where the engine accepts
    that.  A root that is an object or a map, whatever lists it holds,
    goes on in the same way with the declarations of its fields.  Only a
    root that is none of the three is turned down as unsupported. *)
Theorem Compile_list_root `{E : Engine} (schema : Schema) (rootName : string)
    (rt : RuleTypes) (opts : list (EnvOption CustomOption)) (root : DeclType) :
  let env0 := (cel_NewEnv []).1 in
  Contains (Type_ schema) "string" || Contains (Type_ schema) "integer"
  || Contains (Type_ schema) "boolean" || Contains (Type_ schema) "number"
  = false →
  celmodel_NewRuleTypes (scopeName rootName) schema (celmodel_NewRegistry env0)
  = (rt, None) →
  RuleTypes_EnvOptions rt (Env_TypeProvider env0) = (opts, None) →
  RuleTypes_FindDeclType rt (scopeName rootName) = Some root →
  (DeclType_IsObject root || DeclType_IsMap root = false →
   DeclType_IsList root = true →
   cel.Compile_env schema rootName
   = Returned (setupResult (Env_Extend env0 (opts ++ [cel_Declarations []])))
   ∧ ∀ CelRules env,
       Env_Extend env0 (opts ++ [cel_Declarations []]) = (env, None) →
       cel.Compile schema CelRules rootName
       = Returned (ruleProgram env <$> CelRules, omap (ruleError env) CelRules))
  ∧ (DeclType_IsObject root || DeclType_IsMap root = true →
     cel.Compile_env schema rootName
     = Returned
         (setupResult
            (Env_Extend env0 (opts ++ [cel_Declarations (fieldDecls root)]))))
  ∧ (DeclType_IsObject root || DeclType_IsMap root = false →
     DeclType_IsList root = false →
     ∀ CelRules,
       cel.Compile schema CelRules rootName = Returned ([], ["unsupported type"])).
Proof.
  intros env0 Hscalar Hrt Hopts Hroot.
  pose proof (Compile_env_structured schema rootName rt opts root
                Hscalar Hrt Hopts Hroot) as Henv.
  fold env0 in Henv. split; [|split].
  - intros Hobj Hlist. rewrite Hobj, Hlist in Henv. split; [done|].
    intros CelRules env Hext. apply Compile_reaches_loop.
    by rewrite Henv, Hext.
  - intros Hobj. by rewrite Henv, Hobj.
  - intros Hobj Hlist CelRules. unfold cel.Compile.
    by rewrite Henv, Hobj, Hlist.
Qed.

Lemma Compile_list_root_witness :
  cel.Compile_env (E := reference.engine) reference.names ""
  = Returned
      (inr [cel_CustomOption "self";
            cel_Declarations [decls_NewVar "self" (decls_NewListType decls_Dyn)];
            cel_Declarations []]).
Proof.
  exact (proj1 (proj1 (Compile_list_root (E := reference.engine)
                         reference.names "" ("self", reference.names) _
                         reference.names eq_refl eq_refl eq_refl eq_refl)
                  eq_refl eq_refl)).
Defined.

(** C9, as the code has it. An empty root name is replaced before anything
    else is done: by [self] in [Compile], by [__root__] in [CompileCel]. *)
Theorem empty_rootName_default `{E : Engine} (schema : Schema)
    (CelRules : list CelRule) :
  cel.Compile schema CelRules "" = cel.Compile schema CelRules "self"
  ∧ validate.CompileCel schema CelRules ""
    = validate.CompileCel schema CelRules "__root__".
Proof. split; reflexivity. Qed.

(** [CompileCel] does not bind an empty root name to [self]: on the
    reference engine the root is declared as [__root__], and the rule
    [self] compiles with the root name [self] and not with the empty
    one. *)
Lemma CompileCel_empty_rootName_not_self :
  validate.CompileCel_env (E := reference.engine) reference.replicas ""
  ≠ validate.CompileCel_env (E := reference.engine) reference.replicas "self"
  ∧ validate.CompileCel (E := reference.engine) reference.replicas
      [mkCelRule "self" "the object should be set"] ""
    = ([None],
       ["compilation failed for rule: the object should be set"
        +:+ " with message: undeclared reference to 'self'"])
  ∧ validate.CompileCel (E := reference.engine) reference.replicas
      [mkCelRule "self" "the object should be set"] "self"
    = ([Some "self"], []).
Proof.
  split; [|split].
  - vm_compute. intros H. discriminate H.
  - vm_compute. reflexivity.
  - vm_compute. reflexivity.
Qed.

(** C10. [SetPath] has a value receiver: the caller's validator is the
    same after the call, in its path, its rules and its programs, and
    [Validate] reports under the path the validator had.  The path given
    to [SetPath] only reaches the method's own copy. *)
Theorem SetPath_leaves_validator `{E : Engine}
    (c : validate.celExpressionValidator) (path : string) (data : Data) :
  validate.SetPath c path = c
  ∧ validate.Path (validate.SetPath c path) = validate.Path c
  ∧ validate.Rules (validate.SetPath c path) = validate.Rules c
  ∧ validate.Programs (validate.SetPath c path) = validate.Programs c
  ∧ validate.Validate (validate.SetPath c path) data = validate.Validate c data
  ∧ validate.Path (validate.SetPath_receiver c path) = path.
Proof. repeat split. Qed.

(** ** More on the rule loop and on the setup of [Compile] *)

Section LoopMore.
Context {E : Engine}.

Lemma rule_outcome_cases (env : Env) (rule : CelRule) :
  (ruleError env rule = None ∧ is_Some (ruleProgram env rule))
  ∨ (is_Some (ruleError env rule) ∧ ruleProgram env rule = None).
Proof.
  unfold ruleError, ruleProgram.
  destruct (Env_Compile env (Rule rule)) as [ast [issues|]]; [right; eauto|].
  destruct (Env_Program env ast) as [prog [err|]]; [right|left]; eauto.
Qed.

Lemma rule_outcome_count (env : Env) (rules : list CelRule) :
  length (omap (ruleError env) rules)
  + length (omap id (ruleProgram env <$> rules))
  = length rules.
Proof.
  induction rules as [|rule rest IH]; [done|]. csimpl.
  destruct (rule_outcome_cases env rule) as [[-> [prog ->]]|[[err ->] ->]];
    csimpl; lia.
Qed.

Lemma rule_errors_nil (env : Env) (rules : list CelRule) :
  omap (ruleError env) rules = [] ↔ Forall is_Some (ruleProgram env <$> rules).
Proof.
  induction rules as [|rule rest IH]; csimpl; [by split|].
  destruct (rule_outcome_cases env rule) as [[-> [prog ->]]|[[err ->] ->]]; csimpl.
  - rewrite IH. split; [by constructor|by inversion 1].
  - split; [done|]. inversion 1 as [|? ? [? ?]]. discriminate.
Qed.

Lemma Compile_env_one_error (schema : Schema) (rootName : string)
    (allErrors : list error) :
  cel.Compile_env schema rootName = Returned (inl allErrors) →
  ∃ err, allErrors = [err].
Proof.
  unfold cel.Compile_env. intros Hsetup.
  repeat case_match; simplify_eq; eauto.
Qed.
End LoopMore.

(** X1. Given a schema pointer, [Compile] panics exactly when the pointer
    is [nil], at the first [schema.Type] of line 47.  On every other
    schema no statement of its own panics: its only index expression,
    [schema.Type[0]], is evaluated after one of the four [Contains] tests
    has succeeded, hence on a list that is not empty.  (The calls into
    cel-go and celmodel are taken to return.) *)
Theorem Compile_panics_only_on_nil `{E : Engine} (schema : option Schema)
    (CelRules : list CelRule) (rootName : string) :
  (∃ v, cel.Compile_pointer schema CelRules rootName = Panicked v)
  ↔ schema = None.
Proof.
  destruct schema as [schema|]; simpl.
  - destruct (Compile_returns schema CelRules rootName)
      as (programs & allErrors & ->).
    split; [by intros [v ?]|done].
  - split; [done|]. intros _. by eexists.
Qed.

(** X2. When the setup of [Compile] fails, the caller gets exactly one
    error and a [nil] slice of programs, whatever the rules are: the slice
    is not a slice of [len(CelRules)] empty slots. *)
Theorem Compile_setup_failure `{E : Engine} (schema : Schema)
    (rootName : string) (allErrors : list error) :
  cel.Compile_env schema rootName = Returned (inl allErrors) →
  length allErrors = 1
  ∧ ∀ CelRules, cel.Compile schema CelRules rootName = Returned ([], allErrors).
Proof.
  intros Hsetup. split.
  - by destruct (Compile_env_one_error _ _ _ Hsetup) as [err ->].
  - intros CelRules. unfold cel.Compile. by rewrite Hsetup.
Qed.

Lemma Compile_setup_failure_witness :
  cel.Compile (E := reference.engine) (reference.scalar "file")
    [mkCelRule "self" "first"; mkCelRule "self" "second"] ""
  = Returned ([], ["unsupported schema type: file"]).
Proof.
  exact (proj2 (Compile_setup_failure (E := reference.engine)
                  (reference.scalar "file") "" _ eq_refl)
           [mkCelRule "self" "first"; mkCelRule "self" "second"]).
Defined.

(** X3. Once the environment is built, every rule accounts for exactly
    one thing in what [Compile] returns, an error or a program that is not
    [nil]: the errors and the programs that are not [nil] are together as
    many as the rules. *)
Theorem Compile_counts `{E : Engine} (schema : Schema) (rootName : string)
    (env : Env) (CelRules : list CelRule) (programs : list (option Program))
    (allErrors : list error) :
  cel.Compile_env schema rootName = Returned (inr env) →
  cel.Compile schema CelRules rootName = Returned (programs, allErrors) →
  length allErrors + length (omap id programs) = length CelRules.
Proof.
  intros Henv. rewrite (Compile_reaches_loop _ _ env) by done.
  intros [= <- <-]. apply rule_outcome_count.
Qed.

Lemma Compile_counts_witness :
  ∃ (programs : list (option (Program (Engine := reference.engine))))
    (allErrors : list error),
    cel.Compile (E := reference.engine) reference.replicas
      [mkCelRule "minReplicas" "first"; mkCelRule "" "second";
       mkCelRule "replicas" "third"] ""
    = Returned (programs, allErrors)
    ∧ length allErrors + length (omap id programs) = 3.
Proof.
  eexists _, _. split; [reflexivity|].
  exact (Compile_counts (E := reference.engine) reference.replicas "" _
           [mkCelRule "minReplicas" "first"; mkCelRule "" "second";
            mkCelRule "replicas" "third"] _ _ eq_refl eq_refl).
Defined.

(** X4. Once the environment is built, [Compile] returns no error exactly
    when none of the programs it returns is [nil]. *)
Theorem Compile_no_error_iff_all_programs `{E : Engine} (schema : Schema)
    (rootName : string) (env : Env) (CelRules : list CelRule)
    (programs : list (option Program)) (allErrors : list error) :
  cel.Compile_env schema rootName = Returned (inr env) →
  cel.Compile schema CelRules rootName = Returned (programs, allErrors) →
  allErrors = [] ↔ Forall is_Some programs.
Proof.
  intros Henv. rewrite (Compile_reaches_loop _ _ env) by done.
  intros [= <- <-]. apply rule_errors_nil.
Qed.

Lemma Compile_no_error_iff_all_programs_witness :
  ∃ (programs : list (option (Program (Engine := reference.engine)))),
    cel.Compile (E := reference.engine) reference.replicas
      [mkCelRule "minReplicas" "first"; mkCelRule "maxReplicas" "second"] ""
    = Returned (programs, [])
    ∧ Forall is_Some programs.
Proof.
  eexists. split; [reflexivity|].
  exact (proj1 (Compile_no_error_iff_all_programs (E := reference.engine)
                  reference.replicas "" _
                  [mkCelRule "minReplicas" "first"; mkCelRule "maxReplicas" "second"]
                  _ _ eq_refl eq_refl) eq_refl).
Defined.

(** X5. Once the environment is built, compiling two lists of rules one
    after the other gives what compiling them separately gives, programs
    after programs and errors after errors.  (Where the setup fails this
    is not so: the one setup error is returned once.) *)
Theorem Compile_app `{E : Engine} (schema : Schema) (rootName : string)
    (env : Env) (rules1 rules2 : list CelRule)
    (programs1 programs2 : list (option Program))
    (errors1 errors2 : list error) :
  cel.Compile_env schema rootName = Returned (inr env) →
  cel.Compile schema rules1 rootName = Returned (programs1, errors1) →
  cel.Compile schema rules2 rootName = Returned (programs2, errors2) →
  cel.Compile schema (rules1 ++ rules2) rootName
  = Returned (programs1 ++ programs2, errors1 ++ errors2).
Proof.
  intros Henv. rewrite !(Compile_reaches_loop _ _ env) by done.
  intros [= <- <-] [= <- <-]. by rewrite fmap_app, omap_app.
Qed.

Lemma Compile_app_witness :
  cel.Compile (E := reference.engine) reference.replicas
    ([mkCelRule "replicas" "first"] ++ [mkCelRule "minReplicas" "second"]) ""
  = Returned
      ([None] ++ [Some "minReplicas"],
       ["compilation failed for rule: first with message: "
        +:+ "undeclared reference to 'replicas'"] ++ []).
Proof.
  exact (Compile_app (E := reference.engine) reference.replicas "" _
           [mkCelRule "replicas" "first"] [mkCelRule "minReplicas" "second"]
           _ _ _ _ eq_refl eq_refl eq_refl).
Defined.

(** X6. Once the environment is built, a rule that compiles and whose
    program cannot be instantiated is reported with the
    [program instantiation failed] error, made of the rule's message and
    of the error of [env.Program]; its slot stays [nil]. *)
Theorem Compile_instantiation_failure `{E : Engine} (schema : Schema)
    (rootName : string) (env : Env) (CelRules : list CelRule)
    (programs : list (option Program)) (allErrors : list error)
    (i : nat) (rule : CelRule) (ast : Ast) (err : error) :
  cel.Compile_env schema rootName = Returned (inr env) →
  cel.Compile schema CelRules rootName = Returned (programs, allErrors) →
  CelRules !! i = Some rule →
  Env_Compile env (Rule rule) = (ast, None) →
  (Env_Program env ast).2 = Some err →
  ("program instantiation failed for rule: " +:+ Message rule
   +:+ " with message: " +:+ err) ∈ allErrors
  ∧ programs !! i = Some None.
Proof.
  intros Henv. rewrite (Compile_reaches_loop _ _ env) by done.
  intros [= <- <-] Hi Hast Herr.
  destruct (Env_Program env ast) as [prog o] eqn:Hprog. simpl in Herr. subst o.
  split.
  - apply list_elem_of_omap. exists rule.
    split; [by eapply list_elem_of_lookup_2|].
    unfold ruleError. by rewrite Hast, Hprog.
  - rewrite list_lookup_fmap, Hi. simpl.
    unfold ruleProgram. by rewrite Hast, Hprog.
Qed.

Lemma Compile_instantiation_failure_witness :
  let E := reference.variant None true ["maxReplicas"] in
  ∃ (programs : list (option (Program (Engine := E)))) (allErrors : list error),
    cel.Compile (E := E) reference.replicas
      [mkCelRule "minReplicas" "first"; mkCelRule "maxReplicas" "second"] ""
    = Returned (programs, allErrors)
    ∧ ("program instantiation failed for rule: second with message: "
       +:+ "no plan for 'maxReplicas'") ∈ allErrors
    ∧ programs !! 1%nat = Some None.
Proof.
  intros E. eexists _, _. split; [reflexivity|].
  exact (Compile_instantiation_failure (E := E) reference.replicas "" _
           [mkCelRule "minReplicas" "first"; mkCelRule "maxReplicas" "second"]
           _ _ 1 (mkCelRule "maxReplicas" "second") "maxReplicas"
           "no plan for 'maxReplicas'" eq_refl eq_refl eq_refl eq_refl eq_refl).
Defined.

(** X7. It is [schema.Type[0]] alone that chooses the declaration.  A
    schema whose types include a scalar kind and do not start with one is
    turned down with [not supported for type], and neither the rule types
    nor the rules are looked at. *)
Theorem Compile_first_type_decides `{E : Engine} (schema : Schema)
    (CelRules : list CelRule) (rootName t : string) :
  Type_ schema !! 0%nat = Some t →
  scalarType t = None →
  Contains (Type_ schema) "string" || Contains (Type_ schema) "integer"
  || Contains (Type_ schema) "boolean" || Contains (Type_ schema) "number"
  = true →
  cel.Compile schema CelRules rootName
  = Returned ([], ["not supported for type: " +:+ t]).
Proof.
  intros Ht HT Hscalar. unfold cel.Compile, cel.Compile_env.
  rewrite Hscalar, Ht. unfold scalarType in HT.
  destruct (String.eqb t "string"); [done|].
  destruct (String.eqb t "integer"); [done|].
  destruct (String.eqb t "boolean"); [done|].
  by destruct (String.eqb t "number").
Qed.

Lemma Compile_first_type_decides_witness :
  cel.Compile (E := reference.engine)
    (mkSchema ["object"; "string"] "" [] None None)
    [mkCelRule "self" "first"] ""
  = Returned ([], ["not supported for type: object"]).
Proof.
  exact (Compile_first_type_decides (E := reference.engine)
           (mkSchema ["object"; "string"] "" [] None None)
           [mkCelRule "self" "first"] "" "object" eq_refl eq_refl eq_refl).
Defined.

(** ** The variants side by side *)

Section Variants.
Context {E : Engine}.

Lemma length_nonempty (s : string) :
  s ≠ "" → Nat.eqb (String.length s) 0 = false.
Proof. by destruct s. Qed.

Lemma fieldDecls_names_map (root : DeclType) :
  Decl_name <$> fieldDecls root = (map_to_list (DeclType_Fields root)).*1.
Proof. unfold fieldDecls. by rewrite <- list_fmap_compose. Qed.

(** The setup of [Compile] on a scalar kind, for any position of the
    kind's name among the other types of the schema. *)
Lemma Compile_env_scalar (schema : Schema) (rootName t : string) (T : exprType) :
  Type_ schema !! 0%nat = Some t →
  scalarType t = Some T →
  cel.Compile_env schema rootName
  = match cel_NewEnv
            [celext_Strings; celext_Encoders;
             cel_Declarations [decls_NewVar (scopeName rootName) T]] with
    | (_, Some err) =>
        Returned (inl ["error initializing CEL environment: " +:+ err])
    | (env, None) => Returned (inr env)
    end.
Proof.
  intros Ht HT. unfold cel.Compile_env. fold (scopeName rootName).
  destruct (Type_ schema) as [|t' rest]; [done|].
  injection Ht as ->. unfold scalarType in HT. simpl.
  destruct (String.eqb t "string");
    [|destruct (String.eqb t "integer");
      [|destruct (String.eqb t "boolean");
        [|destruct (String.eqb t "number"); [|done]]]];
    injection HT as <-;
    by destruct (Contains rest "string"), (Contains rest "integer"),
      (Contains rest "boolean"), (Contains rest "number").
Qed.
End Variants.

(** X8. An error of [rt.EnvOptions] ends the three-argument [Compile] and
    [CompileCel], which return it as their only error.  The two-argument
    [Compile] never tests it: it goes on to extend the environment with
    the options returned beside the error, and the error is lost. *)
Theorem EnvOptions_error_dropped `{E : Engine} (schema : Schema)
    (CelRules : list CelRule) (rt : RuleTypes)
    (opts : list (EnvOption CustomOption)) (err : error) :
  let env0 := (cel_NewEnv []).1 in
  let root :=
    default
      (DeclType_MaybeAssignTypeName (celmodel_SchemaDeclType schema) "self")
      (RuleTypes_FindDeclType rt "self") in
  Contains (Type_ schema) "string" || Contains (Type_ schema) "integer"
  || Contains (Type_ schema) "boolean" || Contains (Type_ schema) "number"
  = false →
  celmodel_NewRuleTypes "self" schema (celmodel_NewRegistry env0) = (rt, None) →
  RuleTypes_EnvOptions rt (Env_TypeProvider env0) = (opts, Some err) →
  cel.Compile schema CelRules "self" = Returned ([], [err])
  ∧ validate.CompileCel schema CelRules "self" = ([], [err])
  ∧ cel2.Compile_env schema
    = setupResult
        (Env_Extend env0
           (opts ++ [cel_Declarations
                       ((if DeclType_IsObject root then fieldDecls root else [])
                        ++ [decls_NewVar "self" (DeclType_ExprType root)])])).
Proof.
  intros env0 root Hscalar Hrt Hopts. repeat split.
  - unfold cel.Compile, cel.Compile_env. simpl. fold env0.
    by rewrite Hscalar, Hrt, Hopts.
  - unfold validate.CompileCel, validate.CompileCel_env. simpl. fold env0.
    by rewrite Hrt, Hopts.
  - unfold cel2.Compile_env. fold env0. rewrite Hrt, Hopts. simpl.
    unfold root, setupResult.
    destruct (RuleTypes_FindDeclType rt "self") as [found|]; simpl.
    + by destruct (DeclType_IsObject found).
    + by destruct (DeclType_IsObject _).
Qed.

Lemma EnvOptions_error_dropped_witness :
  let E := reference.variant (Some "no type provider") true [] in
  cel.Compile (E := E) reference.replicas [mkCelRule "minReplicas" "first"] "self"
  = Returned ([], ["no type provider"])
  ∧ validate.CompileCel (E := E) reference.replicas
      [mkCelRule "minReplicas" "first"] "self"
    = ([], ["no type provider"])
  ∧ cel2.Compile (E := E) reference.replicas [mkCelRule "minReplicas" "first"]
    = ([Some "minReplicas"], []).
Proof.
  intros E.
  destruct (EnvOptions_error_dropped (E := E) reference.replicas
              [mkCelRule "minReplicas" "first"] ("self", reference.replicas)
              _ "no type provider" eq_refl eq_refl eq_refl)
    as (Hcel & Hvalidate & _).
  split; [exact Hcel|]. split; [exact Hvalidate|].
  vm_compute. reflexivity.
Defined.

(** X9. Given a root name, the three-argument [Compile] and [CompileCel]
    return the same programs and, one by one, the same errors for every
    schema without a scalar type whose root declaration is an object, or
    a list that is not a map.  The equality is that of the sequences: an
    error slice without errors is [nil] in [Compile] and empty in
    [CompileCel], which a list does not tell apart.  (They part on a map
    with fields and on a root that is nothing of the kind: see
    [Compile_list_root].) *)
Theorem Compile_agrees_with_CompileCel `{E : Engine} (schema : Schema)
    (CelRules : list CelRule) (rootName : string) :
  rootName ≠ "" →
  Contains (Type_ schema) "string" || Contains (Type_ schema) "integer"
  || Contains (Type_ schema) "boolean" || Contains (Type_ schema) "number"
  = false →
  (∀ root,
     RuleTypes_FindDeclType
       (celmodel_NewRuleTypes rootName schema
          (celmodel_NewRegistry (cel_NewEnv []).1)).1 rootName = Some root →
     DeclType_IsObject root = true
     ∨ (DeclType_IsMap root = false ∧ DeclType_IsList root = true)) →
  cel.Compile schema CelRules rootName
  = Returned (validate.CompileCel schema CelRules rootName).
Proof.
  intros Hname Hscalar Hroot.
  unfold cel.Compile, cel.Compile_env, validate.CompileCel,
    validate.CompileCel_env.
  rewrite (length_nonempty _ Hname), Hscalar.
  destruct (celmodel_NewRuleTypes rootName schema _) as [rt [err|]]; [done|].
  simpl in Hroot.
  destruct (RuleTypes_EnvOptions rt _) as [opts [err|]]; [done|].
  destruct (RuleTypes_FindDeclType rt rootName) as [root|].
  - destruct (Hroot root eq_refl) as [-> | [-> ->]]; simpl.
    + by destruct (Env_Extend _ _) as [env [err|]].
    + destruct (DeclType_IsObject root); simpl;
        by destruct (Env_Extend _ _) as [env [err|]].
  - simpl. by destruct (Env_Extend _ _) as [env [err|]].
Qed.

Lemma Compile_agrees_with_CompileCel_witness :
  cel.Compile (E := reference.engine) reference.replicas
    [mkCelRule "spec" "first"; mkCelRule "self" "second"] "spec"
  = Returned
      (validate.CompileCel (E := reference.engine) reference.replicas
         [mkCelRule "spec" "first"; mkCelRule "self" "second"] "spec").
Proof.
  apply (Compile_agrees_with_CompileCel (E := reference.engine)).
  - discriminate.
  - reflexivity.
  - intros root [= <-]. left. reflexivity.
Defined.

(** X10. On a schema that starts with the type [string], [integer] or
    [boolean], the three-argument [Compile] called with a root name does
    what [CompileCelForScalarElement] does with that name and that type:
    the same programs and, one by one, the same errors.  The equality is
    that of the sequences: an error slice without errors is [nil] in
    [Compile] and empty in [CompileCelForScalarElement], which a list does
    not tell apart. *)
Theorem Compile_agrees_with_CompileCelForScalarElement `{E : Engine}
    (schema : Schema) (CelRules : list CelRule) (rootName t : string) :
  rootName ≠ "" →
  Type_ schema !! 0%nat = Some t →
  t = "string" ∨ t = "integer" ∨ t = "boolean" →
  cel.Compile schema CelRules rootName
  = Returned (validate.CompileCelForScalarElement CelRules rootName t).
Proof.
  intros Hname Ht Hkind.
  assert (∃ T, scalarType t = Some T
               ∧ validate.CompileCelForScalarElement CelRules rootName t
                 = match cel_NewEnv
                           [celext_Strings; celext_Encoders;
                            cel_Declarations [decls_NewVar rootName T]] with
                   | (_, Some err) =>
                       ([], ["error initializing CEL environment: " +:+ err])
                   | (env, None) => compileRules env CelRules []
                   end)
    as (T & HT & ->).
  { destruct Hkind as [-> | [-> | ->]]; eexists; (split; [reflexivity|]);
      reflexivity. }
  unfold cel.Compile. rewrite (Compile_env_scalar schema rootName t T Ht HT).
  unfold scopeName. rewrite (length_nonempty _ Hname).
  by destruct (cel_NewEnv _) as [env [err|]].
Qed.

Lemma Compile_agrees_with_CompileCelForScalarElement_witness :
  cel.Compile (E := reference.engine) (reference.scalar "integer")
    [mkCelRule "integerTest" "first"; mkCelRule "self" "second"] "integerTest"
  = Returned
      (validate.CompileCelForScalarElement (E := reference.engine)
         [mkCelRule "integerTest" "first"; mkCelRule "self" "second"]
         "integerTest" "integer").
Proof.
  apply (Compile_agrees_with_CompileCelForScalarElement (E := reference.engine)).
  - discriminate.
  - reflexivity.
  - right. left. reflexivity.
Defined.

(** X11. [CompileCelForScalarElement] turns down every type name other
    than [string], [integer] and [boolean], [number] and the empty name
    among them, with the one error [not supported for type] and no
    program; the rules are not compiled. *)
Theorem CompileCelForScalarElement_unsupported `{E : Engine}
    (CelRules : list CelRule) (schemaName schemaType : string) :
  schemaType ≠ "string" → schemaType ≠ "integer" → schemaType ≠ "boolean" →
  validate.CompileCelForScalarElement CelRules schemaName schemaType
  = ([], ["not supported for type: " +:+ schemaType]).
Proof.
  intros Hs Hi Hb. unfold validate.CompileCelForScalarElement.
  apply String.eqb_neq in Hs, Hi, Hb. by rewrite Hs, Hi, Hb.
Qed.

Lemma CompileCelForScalarElement_unsupported_witness :
  validate.CompileCelForScalarElement (E := reference.engine)
    [mkCelRule "items" "first"] "items" "array"
  = ([], ["not supported for type: array"]).
Proof.
  apply (CompileCelForScalarElement_unsupported (E := reference.engine));
    discriminate.
Defined.

(** X12. Once its environment is built, the two-argument [Compile] keeps
    the programs aligned with the rules and collects the errors of all
    rules: one slot for each rule, holding the rule's program or [nil],
    the errors of the rules in the order of the rules, and as many errors
    and programs that are not [nil] as there are rules. *)
Theorem Compile2_index_aligned `{E : Engine} (schema : Schema) (env : Env)
    (celRules : list CelRule) (programs : list (option Program))
    (allErrors : list error) :
  cel2.Compile_env schema = inr env →
  cel2.Compile schema celRules = (programs, allErrors) →
  length programs = length celRules
  ∧ (∀ i rule, celRules !! i = Some rule →
               programs !! i = Some (ruleProgram env rule))
  ∧ allErrors = omap (ruleError env) celRules
  ∧ length allErrors + length (omap id programs) = length celRules.
Proof.
  intros Henv. unfold cel2.Compile. rewrite Henv, compileRules_spec.
  intros [= <- <-]. repeat split.
  - by rewrite length_fmap.
  - intros i rule Hi. by rewrite list_lookup_fmap, Hi.
  - apply rule_outcome_count.
Qed.

Lemma Compile2_index_aligned_witness :
  ∃ (programs : list (option (Program (Engine := reference.engine))))
    (allErrors : list error),
    cel2.Compile (E := reference.engine) reference.flags
      [mkCelRule "self" "first"; mkCelRule "size" "second"]
    = (programs, allErrors)
    ∧ length programs = 2
    ∧ length allErrors + length (omap id programs) = 2.
Proof.
  eexists _, _. split; [reflexivity|].
  destruct (Compile2_index_aligned (E := reference.engine) reference.flags _
              [mkCelRule "self" "first"; mkCelRule "size" "second"] _ _
              eq_refl eq_refl)
    as (Hlen & _ & _ & Hcount).
  split; [exact Hlen|exact Hcount].
Defined.

(** X13. In the list that the two-argument [Compile] gives to
    [cel.Declarations] at line 181, no field name comes twice, and the
    name [self] comes twice exactly when the root is an object with a
    field called [self]: the field and the scoped value are then declared
    under the same name.  This is about that list alone: the options of
    [rt.EnvOptions] go to the same [env.Extend] and may declare names of
    their own. *)
Theorem Compile2_declared_names `{E : Engine} (schema : Schema)
    (rt : RuleTypes) :
  let env0 := (cel_NewEnv []).1 in
  let root :=
    default
      (DeclType_MaybeAssignTypeName (celmodel_SchemaDeclType schema) "self")
      (RuleTypes_FindDeclType rt "self") in
  let propDecls :=
    (if DeclType_IsObject root then fieldDecls root else [])
    ++ [decls_NewVar "self" (DeclType_ExprType root)] in
  celmodel_NewRuleTypes "self" schema (celmodel_NewRegistry env0) = (rt, None) →
  cel2.Compile_env schema
  = setupResult
      (Env_Extend env0
         ((RuleTypes_EnvOptions rt (Env_TypeProvider env0)).1
          ++ [cel_Declarations propDecls]))
  ∧ (NoDup (Decl_name <$> propDecls)
     ↔ ¬ (DeclType_IsObject root = true
          ∧ is_Some (DeclType_Fields root !! "self"))).
Proof.
  intros env0 root propDecls Hrt. split.
  - unfold cel2.Compile_env. fold env0. rewrite Hrt. simpl.
    unfold propDecls, root, setupResult.
    destruct (RuleTypes_FindDeclType rt "self") as [found|]; simpl.
    + by destruct (DeclType_IsObject found).
    + by destruct (DeclType_IsObject _).
  - unfold propDecls. rewrite fmap_app. simpl.
    destruct (DeclType_IsObject root).
    + rewrite fieldDecls_names_map, NoDup_app. split.
      * intros (_ & Hfresh & _) [_ [f Hf]].
        apply (Hfresh "self"); [|by apply list_elem_of_singleton].
        apply list_elem_of_fmap. exists ("self", f).
        split; [done|]. by apply elem_of_map_to_list.
      * intros Hno. split; [apply NoDup_fst_map_to_list|].
        split; [|apply NoDup_singleton].
        intros name ([k f] & Hname & Hkf)%list_elem_of_fmap
          Hself%list_elem_of_singleton.
        simpl in Hname. subst name k.
        apply Hno. split; [done|]. exists f. by apply elem_of_map_to_list.
    + simpl. split; [|intros _; apply NoDup_singleton].
      by intros _ [? _].
Qed.

Lemma Compile2_declared_names_witness :
  let schema := mkSchema ["object"] "" [("self", reference.scalar "string")]
                  None None in
  ¬ NoDup
      (Decl_name
         <$> (if DeclType_IsObject (Engine := reference.engine) schema
              then fieldDecls (E := reference.engine) schema else [])
             ++ [decls_NewVar "self"
                   (DeclType_ExprType (Engine := reference.engine) schema)]).
Proof.
  intros schema Hnodup.
  apply (proj2 (Compile2_declared_names (E := reference.engine) schema
                  ("self", schema) eq_refl)) in Hnodup.
  apply Hnodup. split; [reflexivity|].
  exists (reference.scalar "string"). vm_compute. reflexivity.
Defined.

(** ** More on the validator *)

Section ValidatorMore.
Context {E : Engine}.

Lemma newLoop_Returned (env : Env) (rules : list CelRule) :
  ∀ (done programs : list (option Program)),
    validate.newLoop env (length done) rules
      (done ++ replicate (length rules) None)
    = Returned programs
    ↔ omap (ruleError env) rules = []
      ∧ programs = done ++ (ruleProgram env <$> rules).
Proof.
  induction rules as [|rule rest IH]; intros done programs; csimpl.
  - rewrite !app_nil_r. split; [by intros [= <-]|by intros [_ ->]].
  - unfold ruleError, ruleProgram.
    destruct (Env_Compile env (Rule rule)) as [ast [issues|]];
      [split; [done|by intros [? _]]|].
    destruct (Env_Program env ast) as [prog [err|]];
      [split; [done|by intros [? _]]|].
    rewrite insert_app_r_alt by lia. rewrite Nat.sub_diag. simpl.
    replace (done ++ Some prog :: replicate (length rest) None)
      with ((done ++ [Some prog]) ++ replicate (length rest) None)
      by (by rewrite <- app_assoc).
    replace (S (length done)) with (length (done ++ [Some prog]))
      by (rewrite length_app; simpl; lia).
    rewrite IH. by rewrite <- app_assoc.
Qed.

Lemma newLoop_first_failure (env : Env) (good : list CelRule) (bad : CelRule)
    (rest : list CelRule) (v : string) :
  Forall (λ rule, rulePanic env rule = None) good →
  rulePanic env bad = Some v →
  ∀ (i : nat) (programs : list (option Program)),
    validate.newLoop env i (good ++ bad :: rest) programs = Panicked v.
Proof.
  intros Hgood Hbad. induction Hgood as [|rule good Hrule _ IH];
    intros i programs; simpl.
  - unfold rulePanic in Hbad.
    destruct (Env_Compile env (Rule bad)) as [ast [issues|]]; [by simplify_eq|].
    destruct (Env_Program env ast) as [prog [err|]]; by simplify_eq.
  - unfold rulePanic in Hrule.
    destruct (Env_Compile env (Rule rule)) as [ast [issues|]]; [done|].
    destruct (Env_Program env ast) as [prog [err|]]; [done|]. apply IH.
Qed.

Lemma CompileCel_env_default (schema : Schema) :
  validate.CompileCel_env schema ""
  = match validate.newCelExpressionValidator_env schema with
    | Returned env => inr env
    | Panicked err => inl [err]
    end.
Proof.
  unfold validate.CompileCel_env, validate.newCelExpressionValidator_env. simpl.
  destruct (celmodel_NewRuleTypes "__root__" schema _) as [rt [err|]]; [done|].
  destruct (RuleTypes_EnvOptions rt _) as [opts [err|]]; [done|].
  by destruct (Env_Extend _ _) as [env [err|]].
Qed.

Lemma ValidateLoop_out_of_range (c : validate.celExpressionValidator)
    (data : Data) (programs : list Program) :
  ∀ (i : nat) (res : Result),
    (i ≤ length (validate.Rules c))%nat →
    (length (validate.Rules c) < i + length programs)%nat →
    validate.ValidateLoop c data i (Some <$> programs) res
    = Panicked "index out of range".
Proof.
  induction programs as [|program rest IH]; intros i res Hle Hlt; simpl in *.
  - lia.
  - destruct (validate.Rules c !! i) as [rule|] eqn:Hrule; [|done].
    apply lookup_lt_Some in Hrule.
    destruct (Program_Eval program data) as [evalResult [err|]].
    + apply IH; lia.
    + destruct (neq_true _); apply IH; lia.
Qed.

Lemma ValidateLoop_nil_program (c : validate.celExpressionValidator)
    (data : Data) (programs : list (option Program)) :
  ∀ (i : nat) (res : Result),
    (i + length programs ≤ length (validate.Rules c))%nat →
    ¬ Forall is_Some programs →
    validate.ValidateLoop c data i programs res
    = Panicked "invalid memory address or nil pointer dereference".
Proof.
  induction programs as [|program rest IH]; intros i res Hlen Hnil; simpl in *.
  - by destruct Hnil.
  - destruct (lookup_lt_is_Some_2 (validate.Rules c) i) as [rule ->]; [lia|].
    destruct program as [program|]; [|done].
    assert (¬ Forall is_Some rest) as Hrest
      by (intros Hrest; apply Hnil; constructor; eauto).
    destruct (Program_Eval program data) as [evalResult [err|]].
    + apply IH; [lia|done].
    + destruct (neq_true _); (apply IH; [lia|done]).
Qed.

Lemma ValidateLoop_all_true (c : validate.celExpressionValidator)
    (data : Data) (programs : list Program) :
  Forall (λ program, ∃ evalResult,
            Program_Eval program data = (evalResult, None)
            ∧ RefVal_Value evalResult = go_bool true) programs →
  ∀ (i : nat) (res : Result),
    (i + length programs ≤ length (validate.Rules c))%nat →
    validate.ValidateLoop c data i (Some <$> programs) res = Returned res.
Proof.
  induction 1 as [|program rest (evalResult & Heval & Htrue) _ IH];
    intros i res Hlen; simpl in *; [done|].
  destruct (lookup_lt_is_Some_2 (validate.Rules c) i) as [rule ->]; [lia|].
  rewrite Heval, Htrue. simpl. apply IH. lia.
Qed.
End ValidatorMore.

(** X14. [newCelExpressionValidator] returns a validator exactly when
    [CompileCel], called on the same schema and rules with the empty root
    name, returns no error; the validator then holds the path and the
    rules it was given and the programs that [CompileCel] returns.  In
    every other case it panics. *)
Theorem newCelExpressionValidator_iff_CompileCel `{E : Engine} (path : string)
    (schema : Schema) (rules : list CelRule)
    (c : validate.celExpressionValidator) :
  validate.newCelExpressionValidator path schema rules = Returned c
  ↔ (validate.CompileCel schema rules "").2 = []
    ∧ c = validate.mkValidator path rules
            (validate.CompileCel schema rules "").1.
Proof.
  unfold validate.newCelExpressionValidator, validate.CompileCel.
  rewrite CompileCel_env_default.
  destruct (validate.newCelExpressionValidator_env schema) as [env|err]; simpl.
  - rewrite compileRules_spec. simpl.
    pose proof (newLoop_Returned env rules []) as Hloop. simpl in Hloop.
    destruct (validate.newLoop env 0 rules _) as [programs|v] eqn:Hrun.
    + destruct (proj1 (Hloop programs) eq_refl) as [Hnil ->].
      split; [by intros [= <-]|by intros [_ ->]].
    + split; [done|]. intros [Hnil _].
      discriminate (proj2 (Hloop _) (conj Hnil eq_refl)).
  - split; [done|by intros [? _]].
Qed.

(** X15. A validator returned by [newCelExpressionValidator] has one
    program for each of its rules, none of them [nil], and [Validate]
    does not panic on it for any instance: it returns the reports of all
    the rules, in their order. *)
Theorem newCelExpressionValidator_Validate `{E : Engine} (path : string)
    (schema : Schema) (rules : list CelRule)
    (c : validate.celExpressionValidator) :
  validate.newCelExpressionValidator path schema rules = Returned c →
  ∃ programs : list Program,
    c = validate.mkValidator path rules (Some <$> programs)
    ∧ length programs = length rules
    ∧ ∀ data,
        validate.Validate c data
        = Returned
            (foldl (λ res pr, report res (ruleVerdict path data pr.1 pr.2))
               new_Result (zip programs rules)).
Proof.
  intros Hnew.
  destruct (newCelExpressionValidator_programs _ _ _ _ Hnew)
    as (Hpath & Hrules & programs & Hprograms & Hlen).
  exists programs. split; [|split; [done|]].
  - destruct c as [p r ps]. simpl in *. by subst.
  - intros data. unfold validate.Validate. rewrite Hprograms.
    rewrite ValidateLoop_spec by (rewrite Hrules; simpl; lia).
    by rewrite drop_0, Hpath, Hrules.
Qed.

Lemma newCelExpressionValidator_Validate_witness :
  ∃ c : validate.celExpressionValidator (E := reference.engine),
    validate.newCelExpressionValidator (E := reference.engine) "spec"
      reference.replicas
      [mkCelRule "minReplicas" "first"; mkCelRule "maxReplicas" "second"]
    = Returned c
    ∧ validate.Validate c [("maxReplicas", go_bool true)]
      = Returned
          [reference.ExecutingRule "spec" "" "minReplicas"
             "no such key: minReplicas"].
Proof.
  eexists. split; [reflexivity|].
  destruct (newCelExpressionValidator_Validate (E := reference.engine) "spec"
              reference.replicas
              [mkCelRule "minReplicas" "first"; mkCelRule "maxReplicas" "second"]
              _ eq_refl)
    as (programs & Hc & _ & Hvalidate).
  injection Hc as Hprograms.
  destruct programs as [|p1 [|p2 [|p3 programs]]]; try discriminate Hprograms.
  injection Hprograms as <- <-.
  exact (Hvalidate [("maxReplicas", go_bool true)]).
Defined.

(** X16. [newCelExpressionValidator] panics at the first rule that does
    not compile or whose program cannot be instantiated, with the value
    of that rule: the rules before it compile for nothing, and the rules
    after it are not looked at. *)
Theorem newCelExpressionValidator_first_failure `{E : Engine} (path : string)
    (schema : Schema) (env : Env) (good : list CelRule) (bad : CelRule)
    (rest : list CelRule) (v : string) :
  validate.newCelExpressionValidator_env schema = Returned env →
  Forall (λ rule, rulePanic env rule = None) good →
  rulePanic env bad = Some v →
  validate.newCelExpressionValidator path schema (good ++ bad :: rest)
  = Panicked v.
Proof.
  intros Henv Hgood Hbad. unfold validate.newCelExpressionValidator.
  by rewrite Henv, (newLoop_first_failure env good bad rest v).
Qed.

Lemma newCelExpressionValidator_first_failure_witness :
  validate.newCelExpressionValidator
    (E := reference.variant None true ["maxReplicas"]) "" reference.replicas
    ([mkCelRule "minReplicas" "first"]
     ++ mkCelRule "maxReplicas" "second" :: [mkCelRule "replicas" "third"])
  = Panicked "program instantiation failed: no plan for 'maxReplicas'".
Proof.
  apply (newCelExpressionValidator_first_failure
           (E := reference.variant None true ["maxReplicas"]) ""
           reference.replicas
           [cel_CustomOption "__root__";
            cel_Declarations
              [decls_NewVar "__root__" (decls_NewObjectType "object")];
            cel_Declarations
              (fieldDecls (E := reference.engine) reference.replicas)]).
  - vm_compute. reflexivity.
  - constructor; [vm_compute; reflexivity|constructor].
  - vm_compute. reflexivity.
Defined.

(** X17. [Validate] reads [c.Rules[i]] for every program: on a validator
    with fewer rules than programs it panics with an index out of range,
    and what the first rules reported is lost. *)
Theorem Validate_fewer_rules_panics `{E : Engine}
    (c : validate.celExpressionValidator) (data : Data)
    (programs : list Program) :
  validate.Programs c = Some <$> programs →
  (length (validate.Rules c) < length programs)%nat →
  validate.Validate c data = Panicked "index out of range".
Proof.
  intros Hprograms Hlen. unfold validate.Validate. rewrite Hprograms.
  apply ValidateLoop_out_of_range; lia.
Qed.

Lemma Validate_fewer_rules_panics_witness :
  validate.Validate (E := reference.engine)
    (validate.mkValidator (E := reference.engine) "spec"
       [mkCelRule "minReplicas" "first"]
       [Some "minReplicas"; Some "maxReplicas"])
    [("minReplicas", go_bool false)]
  = Panicked "index out of range".
Proof.
  apply (Validate_fewer_rules_panics (E := reference.engine) _ _
           ["minReplicas"; "maxReplicas"]).
  - reflexivity.
  - simpl. lia.
Defined.

(** X18. The programs that [CompileCel] returns beside an error cannot be
    given to a validator as they are: the slot of the failed rule is
    [nil], and [Validate] panics on it, whatever the instance. *)
Theorem Validate_panics_on_failed_rule `{E : Engine} (schema : Schema)
    (rootName : string) (env : Env) (CelRules : list CelRule)
    (programs : list (option Program)) (allErrors : list error)
    (path : string) (data : Data) :
  validate.CompileCel_env schema rootName = inr env →
  validate.CompileCel schema CelRules rootName = (programs, allErrors) →
  allErrors ≠ [] →
  validate.Validate (validate.mkValidator path CelRules programs) data
  = Panicked "invalid memory address or nil pointer dereference".
Proof.
  intros Henv. rewrite (CompileCel_reaches_loop _ _ env) by done.
  intros [= <- <-] Herrors. unfold validate.Validate. simpl.
  apply ValidateLoop_nil_program.
  - simpl. by rewrite length_fmap.
  - by rewrite <- rule_errors_nil.
Qed.

Lemma Validate_panics_on_failed_rule_witness :
  ∃ (programs : list (option (Program (Engine := reference.engine))))
    (allErrors : list error),
    validate.CompileCel (E := reference.engine) reference.replicas
      [mkCelRule "minReplicas" "first"; mkCelRule "replicas" "second"] ""
    = (programs, allErrors)
    ∧ validate.Validate (E := reference.engine)
        (validate.mkValidator "spec"
           [mkCelRule "minReplicas" "first"; mkCelRule "replicas" "second"]
           programs)
        [("minReplicas", go_bool true)]
      = Panicked "invalid memory address or nil pointer dereference".
Proof.
  eexists _, _. split; [reflexivity|].
  apply (Validate_panics_on_failed_rule (E := reference.engine)
           reference.replicas "" _
           [mkCelRule "minReplicas" "first"; mkCelRule "replicas" "second"]
           _ _ "spec" _ eq_refl eq_refl).
  discriminate.
Defined.

(** X19. Where every program of a validator evaluates to the boolean
    [true] on an instance, [Validate] returns the result it started from:
    nothing is added to it. *)
Theorem Validate_all_true `{E : Engine} (c : validate.celExpressionValidator)
    (data : Data) (programs : list Program) :
  validate.Programs c = Some <$> programs →
  (length programs ≤ length (validate.Rules c))%nat →
  Forall (λ program, ∃ evalResult,
            Program_Eval program data = (evalResult, None)
            ∧ RefVal_Value evalResult = go_bool true) programs →
  validate.Validate c data = Returned new_Result.
Proof.
  intros Hprograms Hlen Htrue. unfold validate.Validate. rewrite Hprograms.
  by apply ValidateLoop_all_true.
Qed.

Lemma Validate_all_true_witness :
  validate.Validate (E := reference.engine)
    (validate.mkValidator (E := reference.engine) "spec"
       [mkCelRule "minReplicas" "first"; mkCelRule "maxReplicas" "second"]
       [Some "minReplicas"; Some "maxReplicas"])
    [("minReplicas", go_bool true); ("maxReplicas", go_bool true)]
  = Returned [].
Proof.
  apply (Validate_all_true (E := reference.engine) _ _
           ["minReplicas"; "maxReplicas"]).
  - reflexivity.
  - simpl. lia.
  - repeat constructor; by eexists.
Defined.
